(** * statsd: member statistics engine

    A shallow embedding of the [statsd] packages of
    github.com/ddritzenhoff/statsd:

    - package [statsd]  : [MonthYear], [Member], [MemberUpdate], [Leaderboard],
                          the error sentinels;
    - package [sqlite]  : the [members] table, the sqlc queries of
                          [query.sql], [MemberService], [LeaderboardService];
    - package [http]    : [HandleReactionEvent], [HandleReactionAddedEvent],
                          [HandleReactionRemovedEvent].

    Conventions.
    - Go's [int] and SQLite's INTEGER are 64-bit: they are integers of [Z]
      and every [+ 1] / [- 1] of the source goes through [wrap].
    - A Go function returning [(v, error)] returns a [result]; a function
      returning only [error] returns [option error] ([None] is [nil]).
    - The database is a value of type [Store] threaded through a state
      monad [M]; the store is available (BeginTx, Commit and the driver do
      not fail), so the only errors a query raises are [sql.ErrNoRows] and
      the UNIQUE constraint violation.
    - The wall clock is an explicit argument.  A [time.Time] is kept at the
      precision the code uses: year, month, and the offset inside the month.
      The text columns [created_at] / [updated_at] hold RFC 3339 renderings
      of such instants; the embedding stores the instant itself. *)

From Stdlib Require Import ZArith List String Ascii Bool Lia.
From Stdlib Require DecimalString.
Import ListNotations.

Local Open Scope string_scope.
Local Open Scope list_scope.
Local Open Scope Z_scope.

(* ------------------------------------------------------------------ *)
(** ** Go integers *)

Definition max_int : Z := 2 ^ 63 - 1.
Definition min_int : Z := - 2 ^ 63.

(** Two's complement wrap-around of a 64-bit signed integer. *)
Definition wrap (z : Z) : Z := (z + 2 ^ 63) mod 2 ^ 64 - 2 ^ 63.

Definition int_add (a b : Z) : Z := wrap (a + b).
Definition int_sub (a b : Z) : Z := wrap (a - b).

(** Go's builtin [max] on two ints. *)
Definition go_max (a b : Z) : Z := if a >? b then a else b.

Definition in_int (z : Z) : Prop := min_int <= z <= max_int.

(* ------------------------------------------------------------------ *)
(** ** Errors *)

(** [ErrNotFound], [ErrInvalid]: the sentinels of package [statsd].
    [sql_ErrNoRows]: [sql.ErrNoRows].  [sqlite_ErrConstraintUnique]: the
    driver's error for a violated UNIQUE constraint.  [time_ParseError]:
    the error of [time.Parse].  [errorString]: an error made by
    [fmt.Errorf] without [%w].  [Errorf msg e]: [fmt.Errorf("msg %w", e)]. *)
Inductive error : Type :=
| ErrNotFound
| ErrInvalid
| sql_ErrNoRows
| sqlite_ErrConstraintUnique
| time_ParseError (value : string)
| errorString (msg : string)
| Errorf (msg : string) (e : error).

Inductive result (A : Type) : Type :=
| Ok (a : A)
| Err (e : error).
Arguments Ok {A} a.
Arguments Err {A} e.

Fixpoint error_eqb (a b : error) : bool :=
  match a, b with
  | ErrNotFound, ErrNotFound => true
  | ErrInvalid, ErrInvalid => true
  | sql_ErrNoRows, sql_ErrNoRows => true
  | sqlite_ErrConstraintUnique, sqlite_ErrConstraintUnique => true
  | time_ParseError v, time_ParseError w => (v =? w)%string
  | errorString m, errorString n => (m =? n)%string
  | Errorf m e, Errorf n f => (m =? n)%string && error_eqb e f
  | _, _ => false
  end.

(** [errors.Is]: [err] or an error it wraps is [target]. *)
Fixpoint errors_Is (err target : error) : bool :=
  error_eqb err target ||
  match err with
  | Errorf _ e => errors_Is e target
  | _ => false
  end.

(* ------------------------------------------------------------------ *)
(** ** time.Time and MonthYear *)

Record GoTime : Type := mkTime {
  t_year : Z;
  t_month : Z;
  t_rest : Z
}.

(** The instants the layout [01-2006] renders in seven characters. *)
Definition valid_time (t : GoTime) : Prop :=
  1 <= t_month t <= 12 /\ 0 <= t_year t <= 9999.

Definition MonthYear : Type := string.

Definition digit (n : Z) : ascii := ascii_of_nat (48 + Z.to_nat (n mod 10)).

Definition is_digit (c : ascii) : bool :=
  (48 <=? nat_of_ascii c)%nat && (nat_of_ascii c <=? 57)%nat.

Definition digit_val (c : ascii) : Z := Z.of_nat (nat_of_ascii c) - 48.

(** [t.Format("01-2006")] on a [valid_time]: two digits of month, a dash,
    four of year. *)
Definition time_Format (t : GoTime) : string :=
  String (digit (t_month t / 10))
  (String (digit (t_month t))
  (String "-"%char
  (String (digit (t_year t / 1000))
  (String (digit (t_year t / 100))
  (String (digit (t_year t / 10))
  (String (digit (t_year t)) EmptyString)))))).

(** [time.Parse("01-2006", s)]: exactly two digits naming a month of
    1..12, a dash, exactly four digits, nothing after; the result is the
    first instant of that month. *)
Definition time_Parse (s : string) : result GoTime :=
  match s with
  | String m1 (String m2 (String sep (String y1 (String y2
      (String y3 (String y4 EmptyString)))))) =>
      if is_digit m1 && is_digit m2 && Ascii.eqb sep "-"%char
         && is_digit y1 && is_digit y2 && is_digit y3 && is_digit y4
      then
        let m := 10 * digit_val m1 + digit_val m2 in
        if (1 <=? m) && (m <=? 12)
        then Ok (mkTime (1000 * digit_val y1 + 100 * digit_val y2
                         + 10 * digit_val y3 + digit_val y4) m 0)
        else Err (time_ParseError s)
      else Err (time_ParseError s)
  | _ => Err (time_ParseError s)
  end.

Definition NewMonthYear (t : GoTime) : MonthYear := time_Format t.

Definition NewMonthYearString (s : string) : result MonthYear :=
  match time_Parse s with
  | Err err => Err err
  | Ok t => Ok (NewMonthYear t)
  end.

(* ------------------------------------------------------------------ *)
(** ** Package statsd: Member, MemberUpdate, Leaderboard *)

Record Member : Type := mkMember {
  ID : Z;
  Date : MonthYear;
  SlackUID : string;
  ReceivedLikes : Z;
  ReceivedDislikes : Z;
  CreatedAt : GoTime;
  UpdatedAt : GoTime
}.

Definition zero_time : GoTime := mkTime 1 1 0.

(** [&statsd.Member{SlackUID: uid, Date: date}]: the other fields zero. *)
Definition Member_literal (uid : string) (date : MonthYear) : Member :=
  mkMember 0 date uid 0 0 zero_time zero_time.

Definition Validate (m : Member) : option error :=
  if (SlackUID m =? "")%string
  then Some (Errorf "slack user ID required" ErrInvalid)
  else None.

(** A [nil] pointer field is [None]. *)
Record MemberUpdate : Type := mkMemberUpdate {
  upd_ReceivedLikes : option Z;
  upd_ReceivedDislikes : option Z
}.

Record Leaderboard : Type := mkLeaderboard {
  lb_Date : MonthYear;
  MostReceivedLikesMember : Member;
  MostReceivedDislikesMember : Member
}.

(* ------------------------------------------------------------------ *)
(** ** Package sqlite/gen: the members table and its queries *)

(** One row of [members] (schema.sql). *)
Record gen_Member : Type := mkRow {
  g_ID : Z;
  g_MonthYear : string;
  g_SlackUid : string;
  g_ReceivedLikes : Z;
  g_ReceivedDislikes : Z;
  g_CreatedAt : GoTime;
  g_UpdatedAt : GoTime
}.

Definition Table : Type := list gen_Member.

Definition has_id (id : Z) (r : gen_Member) : bool := g_ID r =? id.

Definition has_key (uid my : string) (r : gen_Member) : bool :=
  (g_SlackUid r =? uid)%string && (g_MonthYear r =? my)%string.

Definition in_month (my : string) (r : gen_Member) : bool :=
  (g_MonthYear r =? my)%string.

(** [INTEGER PRIMARY KEY]: 1 on an empty table, else the largest id plus 1. *)
Definition next_rowid (t : Table) : Z :=
  match t with
  | [] => 1
  | r :: rest => fold_left (fun acc x => Z.max acc (g_ID x)) rest (g_ID r) + 1
  end.

(** [-- name: FindMemberByID :one] *)
Definition q_FindMemberByID (id : Z) (t : Table) : result gen_Member :=
  match find (has_id id) t with
  | Some r => Ok r
  | None => Err sql_ErrNoRows
  end.

(** [-- name: FindMember :one] *)
Definition q_FindMember (uid my : string) (t : Table) : result gen_Member :=
  match find (has_key uid my) t with
  | Some r => Ok r
  | None => Err sql_ErrNoRows
  end.

(** [-- name: CreateMember :one]; the counters take their DEFAULT 0 and
    UNIQUE(slack_uid, month_year) rejects a second row of the same key. *)
Definition q_CreateMember (my uid : string) (created updated : GoTime)
  (t : Table) : result gen_Member * Table :=
  if existsb (has_key uid my) t
  then (Err sqlite_ErrConstraintUnique, t)
  else
    let r := mkRow (next_rowid t) my uid 0 0 created updated in
    (Ok r, t ++ [r]).

Definition set_counters (likes dislikes : Z) (updated : GoTime)
  (r : gen_Member) : gen_Member :=
  mkRow (g_ID r) (g_MonthYear r) (g_SlackUid r) likes dislikes
        (g_CreatedAt r) updated.

(** The [SET ... WHERE id = ?] of [UpdateMember] on one row. *)
Definition update_row (likes dislikes : Z) (updated : GoTime) (id : Z)
  (r : gen_Member) : gen_Member :=
  if has_id id r then set_counters likes dislikes updated r else r.

(** [-- name: UpdateMember :one] *)
Definition q_UpdateMember (likes dislikes : Z) (updated : GoTime) (id : Z)
  (t : Table) : result gen_Member * Table :=
  let t' := map (update_row likes dislikes updated id) t in
  match find (has_id id) t' with
  | Some r => (Ok r, t')
  | None => (Err sql_ErrNoRows, t')
  end.

(** [ORDER BY key DESC].  SQL leaves the order among rows of equal key
    open; here they keep the order of the table scan.  The statements
    about the queries below hold whichever of the tied rows comes first. *)
Fixpoint insert_desc (key : gen_Member -> Z) (r : gen_Member)
  (sorted : Table) : Table :=
  match sorted with
  | [] => [r]
  | x :: rest =>
      if key x <=? key r then r :: sorted
      else x :: insert_desc key r rest
  end.

Fixpoint order_by_desc (key : gen_Member -> Z) (t : Table) : Table :=
  match t with
  | [] => []
  | r :: rest => insert_desc key r (order_by_desc key rest)
  end.

(** [LIMIT 1] read by a [:one] query. *)
Definition limit_one (t : Table) : result gen_Member :=
  match t with
  | r :: _ => Ok r
  | [] => Err sql_ErrNoRows
  end.

(** [-- name: MostLikesReceived :one] *)
Definition q_MostLikesReceived (my : string) (t : Table) : result gen_Member :=
  limit_one (order_by_desc g_ReceivedLikes (filter (in_month my) t)).

(** [-- name: MostDislikesReceived :one] *)
Definition q_MostDislikesReceived (my : string) (t : Table)
  : result gen_Member :=
  limit_one (order_by_desc g_ReceivedDislikes (filter (in_month my) t)).

(* ------------------------------------------------------------------ *)
(** ** The store and its monad *)

(** The calls made on [MemberService] and [LeaderboardService], in the
    order they are made. *)
Inductive Call : Type :=
| call_FindMemberByID (id : Z)
| call_FindMember (uid : string) (date : MonthYear)
| call_CreateMember (m : option Member)
| call_UpdateMember (id : Z) (upd : MemberUpdate)
| call_FindLeaderboard (date : MonthYear).

Record Store : Type := mkStore {
  members : Table;
  journal : list Call
}.

Definition M (A : Type) : Type := Store -> A * Store.

Definition ret {A : Type} (a : A) : M A := fun s => (a, s).

Definition bind {A B : Type} (c : M A) (k : A -> M B) : M B :=
  fun s => let (a, s') := c s in k a s'.

Notation "x <- c ;; k" := (bind c (fun x => k))
  (at level 61, c at next level, right associativity).
Notation "' pat <- c ;; k" := (bind c (fun x => let 'pat := x in k))
  (at level 61, pat pattern, c at next level, right associativity).
Notation "c ;; k" := (bind c (fun _ => k))
  (at level 61, right associativity).

Definition called (c : Call) : M unit :=
  fun s => (tt, mkStore (members s) (journal s ++ [c])).

(** A query that reads the table. *)
Definition query {A : Type} (q : Table -> A) : M A :=
  fun s => (q (members s), s).

(** A query that writes the table. *)
Definition exec {A : Type} (q : Table -> A * Table) : M A :=
  fun s => let (a, t) := q (members s) in (a, mkStore t (journal s)).

(* ------------------------------------------------------------------ *)
(** ** Package sqlite: MemberService *)

Definition genMemberToMember (mem : gen_Member) : result Member :=
  match NewMonthYearString (g_MonthYear mem) with
  | Err err => Err err
  | Ok date =>
      Ok (mkMember (g_ID mem) date (g_SlackUid mem) (g_ReceivedLikes mem)
                   (g_ReceivedDislikes mem) (g_CreatedAt mem)
                   (g_UpdatedAt mem))
  end.

Definition FindMemberByID (id : Z) : M (result Member) :=
  called (call_FindMemberByID id) ;;
  r <- query (q_FindMemberByID id) ;;
  match r with
  | Err err =>
      if errors_Is err sql_ErrNoRows then ret (Err ErrNotFound)
      else ret (Err err)
  | Ok genMember => ret (genMemberToMember genMember)
  end.

Definition FindMember (uid : string) (date : MonthYear) : M (result Member) :=
  called (call_FindMember uid date) ;;
  r <- query (q_FindMember uid date) ;;
  match r with
  | Err err =>
      if errors_Is err sql_ErrNoRows then ret (Err ErrNotFound)
      else ret (Err err)
  | Ok genMember => ret (genMemberToMember genMember)
  end.

Definition with_times (created updated : GoTime) (m : Member) : Member :=
  mkMember (ID m) (Date m) (SlackUID m) (ReceivedLikes m)
           (ReceivedDislikes m) created updated.

Definition with_ReceivedLikes (v : Z) (m : Member) : Member :=
  mkMember (ID m) (Date m) (SlackUID m) v (ReceivedDislikes m)
           (CreatedAt m) (UpdatedAt m).

Definition with_ReceivedDislikes (v : Z) (m : Member) : Member :=
  mkMember (ID m) (Date m) (SlackUID m) (ReceivedLikes m) v
           (CreatedAt m) (UpdatedAt m).

Definition with_ID (v : Z) (m : Member) : Member :=
  mkMember v (Date m) (SlackUID m) (ReceivedLikes m) (ReceivedDislikes m)
           (CreatedAt m) (UpdatedAt m).

(** [CreateMember(m *Member) error] on a non-nil [m]: the second
    component is the pointee when the call returns.  [now] is [tx.now]. *)
Definition CreateMember (now : GoTime) (m : Member)
  : M (option error * Member) :=
  called (call_CreateMember (Some m)) ;;
  match Validate m with
  | Some err => ret (Some err, m)
  | None =>
      let m1 := with_times now now m in
      r <- exec (q_CreateMember (Date m1) (SlackUID m1)
                                (CreatedAt m1) (UpdatedAt m1)) ;;
      match r with
      | Err err => ret (Some (Errorf "CreateMember:" err), m1)
      | Ok genMem =>
          let m2 := with_ID (g_ID genMem) m1 in
          let m3 := with_ReceivedDislikes (g_ReceivedDislikes genMem) m2 in
          let m4 := with_ReceivedLikes (g_ReceivedLikes genMem) m3 in
          ret (None, m4)
      end
  end.

(** [CreateMember] as declared, on a pointer that may be [nil] ([None]). *)
Definition CreateMember_ptr (now : GoTime) (m : option Member)
  : M (option error * option Member) :=
  match m with
  | None =>
      called (call_CreateMember None) ;;
      ret (Some (errorString "CreateMember: m reference is nil"), None)
  | Some m0 =>
      '(err, m') <- CreateMember now m0 ;;
      ret (err, Some m')
  end.

(** The two [if v := upd.X; v != nil { m.X = *v }] of [UpdateMember]. *)
Definition apply_MemberUpdate (upd : MemberUpdate) (m : Member) : Member :=
  let m1 := match upd_ReceivedLikes upd with
            | Some v => with_ReceivedLikes v m
            | None => m
            end in
  match upd_ReceivedDislikes upd with
  | Some v => with_ReceivedDislikes v m1
  | None => m1
  end.

(** [now] is the [time.Now()] read for [updated_at]. *)
Definition UpdateMember (now : GoTime) (id : Z) (upd : MemberUpdate)
  : M (result Member) :=
  called (call_UpdateMember id upd) ;;
  r <- FindMemberByID id ;;
  match r with
  | Err err => ret (Err err)
  | Ok m =>
      let m2 := apply_MemberUpdate upd m in
      r' <- exec (q_UpdateMember (ReceivedLikes m2) (ReceivedDislikes m2)
                                 now id) ;;
      match r' with
      | Err err => ret (Err (Errorf "UpdateMember:" err))
      | Ok genMem => ret (genMemberToMember genMem)
      end
  end.

(* ------------------------------------------------------------------ *)
(** ** Package sqlite: LeaderboardService *)

Definition FindLeaderboard (date : MonthYear) : M (result Leaderboard) :=
  called (call_FindLeaderboard date) ;;
  r <- query (q_MostLikesReceived date) ;;
  match r with
  | Err err => ret (Err err)
  | Ok genMostReceivedLikesMember =>
      match genMemberToMember genMostReceivedLikesMember with
      | Err err => ret (Err err)
      | Ok mostReceivedLikesMember =>
          r' <- query (q_MostDislikesReceived date) ;;
          match r' with
          | Err err => ret (Err err)
          | Ok genMostReceivedDislikesMember =>
              match genMemberToMember genMostReceivedDislikesMember with
              | Err err => ret (Err err)
              | Ok mostReceivedDislikesMember =>
                  ret (Ok (mkLeaderboard date mostReceivedLikesMember
                                         mostReceivedDislikesMember))
              end
          end
      end
  end.

(* ------------------------------------------------------------------ *)
(** ** Package http: the reaction handlers *)

Definition ThumbsUp : string := "+1".
Definition ThumbsDown : string := "-1".

(** The fields of [slackevents.ReactionAddedEvent] and
    [slackevents.ReactionRemovedEvent] the handlers read. *)
Record ReactionEvent : Type := mkReaction {
  Reaction : string;
  ItemUser : string
}.

(** The three readings of the clock one handler call makes: [time.Now()]
    in [HandleReactionEvent], [tx.now] in [CreateMember], [time.Now()] in
    [UpdateMember]. *)
Record Clock : Type := mkClock {
  at_handler : GoTime;
  at_create : GoTime;
  at_update : GoTime
}.

(** [HandleReactionEvent] from the point where [FindMember] has returned
    [found]. *)
Definition HandleReactionEvent_found (clk : Clock) (memSlackUID : string)
  (update : Member -> Member) (monthYear : MonthYear)
  (found : result Member) : M (option error) :=
  let finish (mem : Member) : M (option error) :=
    let mem' := update mem in
    r <- UpdateMember (at_update clk) (ID mem')
           (mkMemberUpdate (Some (ReceivedLikes mem'))
                           (Some (ReceivedDislikes mem'))) ;;
    match r with
    | Err err => ret (Some err)
    | Ok _ => ret None
    end in
  match found with
  | Err err =>
      if errors_Is err ErrNotFound then
        '(cerr, m) <- CreateMember (at_create clk)
                        (Member_literal memSlackUID monthYear) ;;
        match cerr with
        | Some err' =>
            ret (Some (Errorf
                   "HandleReactionAddedEvent CreateMember itemMember:" err'))
        | None => finish m
        end
      else
        ret (Some (Errorf
               "HandleReactionAddedEvent FindMember ItemUser:" err))
  | Ok mem => finish mem
  end.

Definition HandleReactionEvent (clk : Clock) (memSlackUID : string)
  (update : Member -> Member) : M (option error) :=
  if (memSlackUID =? "USLACKBOT")%string || (memSlackUID =? "")%string
  then ret None
  else
    let monthYear := NewMonthYear (at_handler clk) in
    found <- FindMember memSlackUID monthYear ;;
    HandleReactionEvent_found clk memSlackUID update monthYear found.

Definition like_added (m : Member) : Member :=
  with_ReceivedLikes (int_add (ReceivedLikes m) 1) m.

Definition dislike_added (m : Member) : Member :=
  with_ReceivedDislikes (int_add (ReceivedDislikes m) 1) m.

Definition like_removed (m : Member) : Member :=
  with_ReceivedLikes (go_max (int_sub (ReceivedLikes m) 1) 0) m.

Definition dislike_removed (m : Member) : Member :=
  with_ReceivedDislikes (go_max (int_sub (ReceivedDislikes m) 1) 0) m.

Definition HandleReactionAddedEvent (clk : Clock) (e : ReactionEvent)
  : M (option error) :=
  if (Reaction e =? ThumbsUp)%string then
    HandleReactionEvent clk (ItemUser e) like_added
  else if (Reaction e =? ThumbsDown)%string then
    HandleReactionEvent clk (ItemUser e) dislike_added
  else ret None.

Definition HandleReactionRemovedEvent (clk : Clock) (e : ReactionEvent)
  : M (option error) :=
  if (Reaction e =? ThumbsUp)%string then
    HandleReactionEvent clk (ItemUser e) like_removed
  else if (Reaction e =? ThumbsDown)%string then
    HandleReactionEvent clk (ItemUser e) dislike_removed
  else ret None.

(** The events [HandleEvents] dispatches on. *)
Inductive Event : Type :=
| ReactionAdded (e : ReactionEvent)
| ReactionRemoved (e : ReactionEvent).

Definition dispatch (clk : Clock) (ev : Event) : M (option error) :=
  match ev with
  | ReactionAdded e => HandleReactionAddedEvent clk e
  | ReactionRemoved e => HandleReactionRemovedEvent clk e
  end.

(** A sequence of deliveries, each with its clock, handled one after the
    other; the result lists what each handler returned. *)
Fixpoint deliver (evs : list (Clock * Event)) : M (list (option error)) :=
  match evs with
  | [] => ret []
  | (clk, ev) :: rest =>
      r <- dispatch clk ev ;;
      rs <- deliver rest ;;
      ret (r :: rs)
  end.

(* ------------------------------------------------------------------ *)
(** ** Vocabulary of the statements, and the stores of the examples *)

(** Members A (5 likes), B (5 likes) and C (3 likes) of October 2023. *)
Definition row_A : gen_Member :=
  mkRow 1 "10-2023" "UA" 5 0 (mkTime 2023 10 1) (mkTime 2023 10 2).
Definition row_B : gen_Member :=
  mkRow 2 "10-2023" "UB" 5 1 (mkTime 2023 10 1) (mkTime 2023 10 3).
Definition row_C : gen_Member :=
  mkRow 3 "10-2023" "UC" 3 0 (mkTime 2023 10 1) (mkTime 2023 10 4).
Definition tie_store : Store := mkStore [row_A; row_B; row_C] [].

(** The store with the calls [c] added at the end of its journal. *)
Definition journal_add (c : list Call) (s : Store) : Store :=
  mkStore (members s) (journal s ++ c).

(** What [UpdateMember id upd] keeps of a stored row. *)
Definition kept_by (id : Z) (upd : MemberUpdate) (old new : gen_Member)
  : Prop :=
  g_ID new = g_ID old /\
  g_SlackUid new = g_SlackUid old /\
  g_MonthYear new = g_MonthYear old /\
  g_CreatedAt new = g_CreatedAt old /\
  (upd_ReceivedLikes upd = None ->
     g_ReceivedLikes new = g_ReceivedLikes old) /\
  (upd_ReceivedDislikes upd = None ->
     g_ReceivedDislikes new = g_ReceivedDislikes old) /\
  (g_ID old <> id -> new = old).

(** Two members of October 2023. *)
Definition two_rows : Store :=
  mkStore [mkRow 1 "10-2023" "U1" 4 2 (mkTime 2023 10 1) (mkTime 2023 10 1);
           mkRow 2 "10-2023" "U2" 7 0 (mkTime 2023 10 1) (mkTime 2023 10 1)]
          [].

(** The clock of a delivery handled in October 2023. *)
Definition october : Clock :=
  mkClock (mkTime 2023 10 100) (mkTime 2023 10 101) (mkTime 2023 10 102).

(** A database just opened: no member, no call made. *)
Definition empty_store : Store := mkStore [] [].

(** The store after another delivery of a [+1] for U1 ran to its end. *)
Definition after_rival : Store :=
  snd (HandleReactionAddedEvent october (mkReaction "+1" "U1") empty_store).

(** The (likes, dislikes) stored for [uid] in period [my], if any. *)
Definition counters (uid my : string) (t : Table) : option (Z * Z) :=
  match find (has_key uid my) t with
  | Some r => Some (g_ReceivedLikes r, g_ReceivedDislikes r)
  | None => None
  end.

(** The same, a member never seen counting as (0, 0). *)
Definition counters_or_zero (uid my : string) (t : Table) : Z * Z :=
  match counters uid my t with
  | Some c => c
  | None => (0, 0)
  end.

(** U1 with 4 likes and 2 dislikes in October 2023. *)
Definition one_member : Store :=
  mkStore [mkRow 1 "10-2023" "U1" 4 2 (mkTime 2023 10 1) (mkTime 2023 10 1)]
          [].

(** Every row has both counters between 0 and [B]. *)
Definition bounded (B : Z) (t : Table) : Prop :=
  Forall (fun r => 0 <= g_ReceivedLikes r <= B /\
                   0 <= g_ReceivedDislikes r <= B) t.

(** For each pair of clocks, the added event [e] then the removed one. *)
Definition add_remove_pairs (e : ReactionEvent) (cs : list (Clock * Clock))
  : list (Clock * Event) :=
  flat_map (fun c => [(fst c, ReactionAdded e); (snd c, ReactionRemoved e)])
           cs.

(** Both clocks of a pair read a valid instant of period [my]. *)
Definition in_period (my : MonthYear) (c : Clock * Clock) : Prop :=
  valid_time (at_handler (fst c)) /\ NewMonthYear (at_handler (fst c)) = my /\
  valid_time (at_handler (snd c)) /\ NewMonthYear (at_handler (snd c)) = my.

(** What the pair needs of the store: distinct ids, and the counters of
    the target (zero if never seen) within the non-negative ints. *)
Definition pair_ready (e : ReactionEvent) (my : MonthYear) (s : Store)
  : Prop :=
  NoDup (map g_ID (members s)) /\
  0 <= fst (counters_or_zero (ItemUser e) my (members s)) <= max_int /\
  0 <= snd (counters_or_zero (ItemUser e) my (members s)) <= max_int.

(** A later clock of the same month. *)
Definition later_october : Clock :=
  mkClock (mkTime 2023 10 900) (mkTime 2023 10 901) (mkTime 2023 10 902).

(* ------------------------------------------------------------------ *)
(** ** Package statsd: MonthYear.Month *)

(** [strconv.Itoa], also the [%d] of [fmt.Sprintf]. *)
Definition itoa (n : Z) : string :=
  DecimalString.NilZero.string_of_int (Z.to_int n).

(** [time.Month.String]: the English name of a month of 1..12; any other
    value is printed as the unsigned number it is. *)
Definition Month_String (m : Z) : string :=
  match m with
  | 1 => "January"
  | 2 => "February"
  | 3 => "March"
  | 4 => "April"
  | 5 => "May"
  | 6 => "June"
  | 7 => "July"
  | 8 => "August"
  | 9 => "September"
  | 10 => "October"
  | 11 => "November"
  | 12 => "December"
  | _ => ("%!Month(" ++ itoa (m mod 2 ^ 64) ++ ")")%string
  end.

(** [(my *MonthYear) Month() (string, error)] *)
Definition MonthYear_Month (my : MonthYear) : result string :=
  match time_Parse my with
  | Err _ =>
      Err (errorString ("unable to parse the MonthYear: " ++ my)%string)
  | Ok t => Ok (Month_String (t_month t))
  end.

(* ------------------------------------------------------------------ *)
(** ** Package sqlite: DeleteMember *)

(** [-- name: DeleteMember :exec] *)
Definition q_DeleteMember (id : Z) (t : Table) : option error * Table :=
  (None, filter (fun r => negb (has_id id r)) t).

(** [DeleteMember(id int) error].  Like every method of the service it
    runs its query on the database handle, not on the transaction it
    opens; the statement takes effect although the method returns without
    a commit.  No handler calls it and the journal has no entry for it. *)
Definition DeleteMember (id : Z) : M (option error) :=
  r <- exec (q_DeleteMember id) ;;
  match r with
  | Some err => ret (Some (Errorf "DeleteMember:" err))
  | None => ret None
  end.

(* ------------------------------------------------------------------ *)
(** ** Package http: HandleMonthlyUpdate *)

(** [url.Values], the keys in the order they are looked up. *)
Definition url_Values : Type := list (string * list string).

(** [Values.Get]: the first value of the key, the empty string without. *)
Definition Values_Get (v : url_Values) (key : string) : string :=
  match find (fun kv => (fst kv =? key)%string) v with
  | Some (_, x :: _) => x
  | _ => ""
  end.

(** The blocks of a Slack message the handler builds: a section holding
    one mrkdwn text, or a divider. *)
Inductive Block : Type :=
| SectionBlock (text : string)
| DividerBlock.

(** The blocks of the monthly summary. *)
Definition monthly_blocks (month : string) (leaderboard : Leaderboard)
  : list Block :=
  [SectionBlock
     ("Slack member activity for the month of " ++ month)%string;
   DividerBlock;
   SectionBlock
     ("- most likes received: <@"
      ++ SlackUID (MostReceivedLikesMember leaderboard)
      ++ "> with "
      ++ itoa (ReceivedLikes (MostReceivedLikesMember leaderboard))
      ++ " likes")%string;
   SectionBlock
     ("- hottest takes (most dislikes received): <@"
      ++ SlackUID (MostReceivedDislikesMember leaderboard)
      ++ "> with "
      ++ itoa (ReceivedDislikes (MostReceivedDislikesMember leaderboard))
      ++ " dislikes")%string].

(** [HandleMonthlyUpdate] on a request whose form has been parsed into
    [PostForm].  [post] is what the Slack client's [PostMessage] answers.
    The second component is the (channel, blocks) handed to [PostMessage],
    [None] when the handler returns before that call. *)
Definition HandleMonthlyUpdate (PostForm : url_Values) (post : option error)
  : M (option error * option (string * list Block)) :=
  let channelID := Values_Get PostForm "channel" in
  if (channelID =? "")%string then
    ret (Some (errorString "no channel value provided within the form"),
         None)
  else
    let rawDate := Values_Get PostForm "date" in
    if (rawDate =? "")%string then
      ret (Some (errorString "no date value provided within the form"),
           None)
    else
      match NewMonthYearString rawDate with
      | Err err => ret (Some err, None)
      | Ok date =>
          r <- FindLeaderboard date ;;
          match r with
          | Err err => ret (Some err, None)
          | Ok leaderboard =>
              match MonthYear_Month date with
              | Err err => ret (Some err, None)
              | Ok month =>
                  let blocks := monthly_blocks month leaderboard in
                  match post with
                  | Some err =>
                      ret (Some (Errorf "WeeklyUpdate PostMessage:" err),
                           Some (channelID, blocks))
                  | None => ret (None, Some (channelID, blocks))
                  end
              end
          end
      end.

(* ------------------------------------------------------------------ *)
(** ** Vocabulary of the further statements *)

(** The (SlackUID, period) of a row: the columns under UNIQUE. *)
Definition row_key (r : gen_Member) : string * string :=
  (g_SlackUid r, g_MonthYear r).

(** The constraints of schema.sql: ids distinct (PRIMARY KEY), keys
    distinct (UNIQUE(slack_uid, month_year)). *)
Definition table_ok (t : Table) : Prop :=
  NoDup (map g_ID t) /\ NoDup (map row_key t).

(** What no handler changes of a row once it is stored. *)
Definition row_identity (r : gen_Member) : Z * string * string * GoTime :=
  (g_ID r, g_SlackUid r, g_MonthYear r, g_CreatedAt r).

(** Added reactions [rs] on the posts of [uid], each with its clock. *)
Definition added_on (uid : string) (rs : list (Clock * string))
  : list (Clock * Event) :=
  map (fun cr => (fst cr, ReactionAdded (mkReaction (snd cr) uid))) rs.

(** How many of the reactions [rs] are [name]. *)
Definition count_reaction (name : string) (rs : list (Clock * string)) : Z :=
  Z.of_nat (List.length (filter (fun cr => (snd cr =? name)%string) rs)).

(** The member as [genMemberToMember] reads it off a row. *)
Definition member_of_row (r : gen_Member) : Member :=
  mkMember (g_ID r) (g_MonthYear r) (g_SlackUid r) (g_ReceivedLikes r)
           (g_ReceivedDislikes r) (g_CreatedAt r) (g_UpdatedAt r).

(** A form naming a channel and a date. *)
Definition update_form (channel date : string) : url_Values :=
  [("channel", [channel]); ("date", [date])].

(** What a handler may do to the table, in any number of steps: nothing,
    set the counters and updated_at of the rows of one id, or append a row
    whose id is above every id and whose key no row has. *)
Inductive table_step : Table -> Table -> Prop :=
| step_same (t : Table) : table_step t t
| step_update (t : Table) (l d : Z) (now : GoTime) (id : Z) :
    table_step t (map (update_row l d now id) t)
| step_insert (t : Table) (r : gen_Member) :
    (forall x, In x t -> g_ID x < g_ID r) ->
    find (has_key (g_SlackUid r) (g_MonthYear r)) t = None ->
    table_step t (t ++ [r])
| step_trans (t1 t2 t3 : Table) :
    table_step t1 t2 -> table_step t2 t3 -> table_step t1 t3.

(** Every clock of [rs] reads a valid instant of period [my]. *)
Definition all_in_period (my : MonthYear) (rs : list (Clock * string))
  : Prop :=
  Forall (fun cr => valid_time (at_handler (fst cr)) /\
                    NewMonthYear (at_handler (fst cr)) = my) rs.

(* ================================================================== *)
(** * Properties *)

(* ------------------------------------------------------------------ *)
(** ** Integers, errors, MonthYear *)

Lemma wrap_in_int (z : Z) : in_int z -> wrap z = z.
Proof.
  unfold in_int, min_int, max_int, wrap. intros H.
  rewrite Z.mod_small; lia.
Qed.

Lemma go_max_spec (a b : Z) : go_max a b = Z.max a b.
Proof.
  unfold go_max. destruct (Z.gtb_spec a b); lia.
Qed.

Lemma errors_Is_refl_sentinel :
  errors_Is ErrNotFound ErrNotFound = true /\
  errors_Is sql_ErrNoRows sql_ErrNoRows = true /\
  errors_Is sql_ErrNoRows ErrNotFound = false /\
  errors_Is sqlite_ErrConstraintUnique sql_ErrNoRows = false.
Proof. repeat split. Qed.

Lemma digit_is_digit (n : Z) :
  is_digit (digit n) = true /\ digit_val (digit n) = n mod 10.
Proof.
  unfold digit.
  assert (H : 0 <= n mod 10 < 10) by (apply Z.mod_pos_bound; lia).
  assert (C : n mod 10 = 0 \/ n mod 10 = 1 \/ n mod 10 = 2 \/ n mod 10 = 3
              \/ n mod 10 = 4 \/ n mod 10 = 5 \/ n mod 10 = 6
              \/ n mod 10 = 7 \/ n mod 10 = 8 \/ n mod 10 = 9) by lia.
  repeat (destruct C as [C | C]; [rewrite C; split; reflexivity |]).
  rewrite C; split; reflexivity.
Qed.

(** A rendered month parses back to itself: [NewMonthYearString] accepts
    every [MonthYear] made by [NewMonthYear] from a valid instant. *)
Lemma NewMonthYearString_NewMonthYear (t : GoTime) :
  valid_time t -> NewMonthYearString (NewMonthYear t) = Ok (NewMonthYear t).
Proof.
  intros [Hm Hy].
  unfold NewMonthYearString, NewMonthYear, time_Parse, time_Format.
  destruct (digit_is_digit (t_month t / 10)) as [-> ->].
  destruct (digit_is_digit (t_month t)) as [-> ->].
  destruct (digit_is_digit (t_year t / 1000)) as [-> ->].
  destruct (digit_is_digit (t_year t / 100)) as [-> ->].
  destruct (digit_is_digit (t_year t / 10)) as [-> ->].
  destruct (digit_is_digit (t_year t)) as [-> ->].
  cbn [andb Ascii.eqb Bool.eqb].
  assert (Em : 10 * ((t_month t / 10) mod 10) + t_month t mod 10 = t_month t).
  { rewrite (Z.mod_small (t_month t / 10) 10).
    - pose proof (Z.div_mod (t_month t) 10). lia.
    - split; [apply Z.div_pos; lia | apply Z.div_lt_upper_bound; lia]. }
  rewrite Em.
  destruct (Z.leb_spec 1 (t_month t)); [| lia].
  destruct (Z.leb_spec (t_month t) 12); [| lia].
  cbn [andb t_month t_year].
  assert (Ey : 1000 * ((t_year t / 1000) mod 10) + 100 * ((t_year t / 100) mod 10)
               + 10 * ((t_year t / 10) mod 10) + t_year t mod 10 = t_year t).
  { pose proof (Z.div_mod (t_year t) 10).
    pose proof (Z.div_mod (t_year t / 10) 10).
    pose proof (Z.div_mod (t_year t / 100) 10).
    rewrite (Z.mod_small (t_year t / 1000) 10)
      by (split; [apply Z.div_pos; lia | apply Z.div_lt_upper_bound; lia]).
    assert (t_year t / 10 / 10 = t_year t / 100)
      by (rewrite Z.div_div by lia; reflexivity).
    assert (t_year t / 100 / 10 = t_year t / 1000)
      by (rewrite Z.div_div by lia; reflexivity).
    lia. }
  rewrite Ey. reflexivity.
Qed.

(* ------------------------------------------------------------------ *)
(** ** Validation on create *)

(** C7.  [CreateMember] on a member whose [SlackUID] is the empty string
    returns an error that is [ErrInvalid] (under [errors.Is]) and leaves
    the table as it was; a member whose [SlackUID] is not empty passes
    [Validate]. *)
Theorem CreateMember_empty_SlackUID_invalid (now : GoTime) (m : Member)
  (s : Store) :
  (SlackUID m = "" ->
     exists err,
       fst (fst (CreateMember now m s)) = Some err /\
       errors_Is err ErrInvalid = true /\
       members (snd (CreateMember now m s)) = members s) /\
  (SlackUID m <> "" -> Validate m = None).
Proof.
  split.
  - intros E. exists (Errorf "slack user ID required" ErrInvalid).
    unfold CreateMember, bind, called, Validate. rewrite E. cbn.
    repeat split.
  - intros N. unfold Validate.
    destruct (String.eqb_spec (SlackUID m) ""); [contradiction | reflexivity].
Qed.

Lemma CreateMember_empty_SlackUID_invalid_witness :
  (exists err,
     fst (fst (CreateMember zero_time (Member_literal "" "10-2023")
                            (mkStore [] []))) = Some err /\
     errors_Is err ErrInvalid = true /\
     members (snd (CreateMember zero_time (Member_literal "" "10-2023")
                                (mkStore [] []))) = []) /\
  Validate (Member_literal "U1ZN1SE2N" "10-2023") = None.
Proof.
  split.
  - apply (proj1 (CreateMember_empty_SlackUID_invalid zero_time
                    (Member_literal "" "10-2023") (mkStore [] []))).
    reflexivity.
  - apply (proj2 (CreateMember_empty_SlackUID_invalid zero_time
                    (Member_literal "U1ZN1SE2N" "10-2023") (mkStore [] []))).
    discriminate.
Defined.

(* ------------------------------------------------------------------ *)
(** ** Events the handlers discard *)

(** C8.  A reaction whose target is the empty string or [USLACKBOT] is a
    no-op that returns [nil]: the store, journal of service calls
    included, is the one it started from. *)
Theorem HandleReactionEvent_invalid_target (clk : Clock) (uid : string)
  (update : Member -> Member) (s : Store) :
  uid = "" \/ uid = "USLACKBOT" ->
  HandleReactionEvent clk uid update s = (None, s).
Proof.
  intros [-> | ->]; reflexivity.
Qed.

Lemma HandleReactionEvent_invalid_target_witness :
  HandleReactionEvent (mkClock zero_time zero_time zero_time) "USLACKBOT"
                      like_added (mkStore [] [])
  = (None, mkStore [] []).
Proof.
  apply (HandleReactionEvent_invalid_target
           (mkClock zero_time zero_time zero_time) "USLACKBOT" like_added
           (mkStore [] [])).
  right. reflexivity.
Defined.

(** C10.  A reaction-added or reaction-removed event whose reaction is
    neither [+1] nor [-1] returns [nil] and leaves the store, journal of
    service calls included, untouched. *)
Theorem other_reactions_ignored (clk : Clock) (e : ReactionEvent)
  (s : Store) :
  Reaction e <> ThumbsUp -> Reaction e <> ThumbsDown ->
  HandleReactionAddedEvent clk e s = (None, s) /\
  HandleReactionRemovedEvent clk e s = (None, s).
Proof.
  intros Hup Hdown.
  unfold HandleReactionAddedEvent, HandleReactionRemovedEvent.
  destruct (String.eqb_spec (Reaction e) ThumbsUp); [contradiction |].
  destruct (String.eqb_spec (Reaction e) ThumbsDown); [contradiction |].
  split; reflexivity.
Qed.

Lemma other_reactions_ignored_witness :
  HandleReactionAddedEvent (mkClock zero_time zero_time zero_time)
    (mkReaction "tada" "U1") (mkStore [] []) = (None, mkStore [] []) /\
  HandleReactionRemovedEvent (mkClock zero_time zero_time zero_time)
    (mkReaction "tada" "U1") (mkStore [] []) = (None, mkStore [] []).
Proof.
  apply (other_reactions_ignored (mkClock zero_time zero_time zero_time)
           (mkReaction "tada" "U1") (mkStore [] [])); discriminate.
Defined.

(* ------------------------------------------------------------------ *)
(** ** The leaderboard queries *)

Section OrderBy.

Variable key : gen_Member -> Z.

Lemma insert_desc_In (r x : gen_Member) (l : Table) :
  In x (insert_desc key r l) <-> x = r \/ In x l.
Proof.
  induction l as [| y l IH]; cbn.
  - intuition.
  - destruct (key y <=? key r); cbn; [intuition |].
    rewrite IH. intuition.
Qed.

Lemma order_by_desc_In (x : gen_Member) (t : Table) :
  In x (order_by_desc key t) <-> In x t.
Proof.
  induction t as [| r t IH]; cbn; [reflexivity |].
  rewrite insert_desc_In, IH. intuition.
Qed.

(** The first row of a descending insertion dominates the inserted row
    and the former first row. *)
Lemma insert_desc_head (r h : gen_Member) (l tl : Table) :
  insert_desc key r l = h :: tl ->
  key r <= key h /\ (forall y l', l = y :: l' -> key y <= key h).
Proof.
  destruct l as [| y l']; cbn.
  - intros [= <- _]. split; [lia | discriminate].
  - destruct (Z.leb_spec (key y) (key r)).
    + intros [= <- _]. split; [lia |]. intros ? ? [= <- _]. assumption.
    + intros [= <- _]. split; [lia |]. intros ? ? [= <- _]. lia.
Qed.

Lemma order_by_desc_head (t : Table) (h : gen_Member) (tl : Table) :
  order_by_desc key t = h :: tl ->
  forall x, In x t -> key x <= key h.
Proof.
  revert h tl. induction t as [| r t IH]; intros h tl E x Hx.
  - destruct Hx.
  - cbn in E. destruct (insert_desc_head _ _ _ _ E) as [Hr Hl].
    destruct Hx as [<- | Hx]; [assumption |].
    destruct (order_by_desc key t) as [| y l'] eqn:Es.
    + apply (order_by_desc_In x) in Hx. rewrite Es in Hx. destruct Hx.
    + specialize (IH y l' eq_refl x Hx). specialize (Hl y l' eq_refl). lia.
Qed.

(** [ORDER BY key DESC LIMIT 1] over the rows of one month. *)
Lemma limit_one_maximum (my : string) (t : Table) (r : gen_Member) :
  limit_one (order_by_desc key (filter (in_month my) t)) = Ok r ->
  In r t /\ g_MonthYear r = my /\
  forall x, In x t -> g_MonthYear x = my -> key x <= key r.
Proof.
  unfold limit_one.
  destruct (order_by_desc key (filter (in_month my) t)) as [| h tl] eqn:E;
    [discriminate |].
  intros [= <-].
  assert (Hin : In h (filter (in_month my) t)).
  { apply order_by_desc_In. rewrite E. left. reflexivity. }
  apply filter_In in Hin. destruct Hin as [Hin Hm].
  apply String.eqb_eq in Hm.
  repeat split; try assumption.
  intros x Hx Hxm. apply (order_by_desc_head _ _ _ E).
  apply filter_In. split; [assumption |].
  unfold in_month. apply String.eqb_eq. assumption.
Qed.

Lemma limit_one_some (my : string) (t : Table) (r0 : gen_Member) :
  In r0 t -> g_MonthYear r0 = my ->
  exists r, limit_one (order_by_desc key (filter (in_month my) t)) = Ok r.
Proof.
  intros Hin Hm.
  destruct (order_by_desc key (filter (in_month my) t)) as [| h tl] eqn:E.
  - exfalso.
    assert (H : In r0 (order_by_desc key (filter (in_month my) t))).
    { apply order_by_desc_In, filter_In. split; [assumption |].
      unfold in_month. apply String.eqb_eq. assumption. }
    rewrite E in H. destruct H.
  - exists h. reflexivity.
Qed.

Lemma limit_one_none (my : string) (t : Table) :
  filter (in_month my) t = [] ->
  limit_one (order_by_desc key (filter (in_month my) t)) = Err sql_ErrNoRows.
Proof. intros ->. reflexivity. Qed.

End OrderBy.

(** C1 (as the code has it).  [MostLikesReceived] and
    [MostDislikesReceived] each return one row: a member of the period
    whose counter is the maximum over the period; and they do return a row
    as soon as the period has a member. *)
Theorem MostReceived_returns_one_maximum (period : string) (t : Table) :
  (forall r, q_MostLikesReceived period t = Ok r ->
     In r t /\ g_MonthYear r = period /\
     forall x, In x t -> g_MonthYear x = period ->
               g_ReceivedLikes x <= g_ReceivedLikes r) /\
  (forall r, q_MostDislikesReceived period t = Ok r ->
     In r t /\ g_MonthYear r = period /\
     forall x, In x t -> g_MonthYear x = period ->
               g_ReceivedDislikes x <= g_ReceivedDislikes r) /\
  (forall r0, In r0 t -> g_MonthYear r0 = period ->
     exists a b, q_MostLikesReceived period t = Ok a /\
                 q_MostDislikesReceived period t = Ok b).
Proof.
  unfold q_MostLikesReceived, q_MostDislikesReceived.
  split; [| split].
  - intros r. apply limit_one_maximum.
  - intros r. apply limit_one_maximum.
  - intros r0 Hin Hm.
    destruct (limit_one_some g_ReceivedLikes period t r0 Hin Hm) as [a Ha].
    destruct (limit_one_some g_ReceivedDislikes period t r0 Hin Hm) as [b Hb].
    exists a, b. split; assumption.
Qed.

Lemma MostReceived_returns_one_maximum_witness :
  In row_A (members tie_store) /\ g_MonthYear row_A = "10-2023" /\
  (forall x, In x (members tie_store) -> g_MonthYear x = "10-2023" ->
             g_ReceivedLikes x <= g_ReceivedLikes row_A).
Proof.
  apply (proj1 (MostReceived_returns_one_maximum "10-2023"
                  (members tie_store)) row_A).
  reflexivity.
Defined.

(** C1 (as stated) fails: A and B tie for the most likes, yet the query
    returns the single row A and the leaderboard holds the single member
    A; B, who also holds the maximum, is not returned. *)
Lemma MostLikesReceived_tie_returns_single_member :
  q_MostLikesReceived "10-2023" (members tie_store) = Ok row_A /\
  (exists lb, fst (FindLeaderboard "10-2023" tie_store) = Ok lb /\
              SlackUID (MostReceivedLikesMember lb) = "UA") /\
  In row_B (members tie_store) /\
  g_MonthYear row_B = "10-2023" /\
  (forall x, In x (members tie_store) ->
             g_ReceivedLikes x <= g_ReceivedLikes row_B) /\
  q_MostLikesReceived "10-2023" (members tie_store) <> Ok row_B.
Proof.
  split; [reflexivity |].
  split; [eexists; split; reflexivity |].
  split; [cbn; tauto |].
  split; [reflexivity |].
  split.
  - intros x [<- | [<- | [<- | []]]]; cbn; lia.
  - discriminate.
Qed.

(** C3 (the code at the failing input).  On a period without members
    [FindLeaderboard] returns [sql.ErrNoRows] as the query raised it, and
    [errors.Is] does not find [ErrNotFound] in it. *)
Theorem FindLeaderboard_empty_period_ErrNoRows :
  fst (FindLeaderboard "01-1999" (mkStore [] [])) = Err sql_ErrNoRows /\
  errors_Is sql_ErrNoRows ErrNotFound = false.
Proof. split; reflexivity. Qed.

(** The same on every store: a period without rows yields [sql.ErrNoRows]. *)
Lemma FindLeaderboard_no_rows (date : MonthYear) (s : Store) :
  filter (in_month date) (members s) = [] ->
  fst (FindLeaderboard date s) = Err sql_ErrNoRows.
Proof.
  intros E. unfold FindLeaderboard, bind, called, query, q_MostLikesReceived.
  cbn. rewrite E. reflexivity.
Qed.

(* ------------------------------------------------------------------ *)
(** ** Rows and tables *)

Lemma find_map_stable (p : gen_Member -> bool) (f : gen_Member -> gen_Member)
  (t : Table) :
  (forall x, p (f x) = p x) ->
  find p (map f t) = option_map f (find p t).
Proof.
  intros Hp. induction t as [| x t IH]; cbn; [reflexivity |].
  rewrite Hp. destruct (p x); [reflexivity | assumption].
Qed.

Lemma has_id_update_row (id' l d : Z) (now : GoTime) (id : Z)
  (r : gen_Member) :
  has_id id' (update_row l d now id r) = has_id id' r.
Proof. unfold update_row. destruct (has_id id r); reflexivity. Qed.

Lemma has_key_update_row (uid my : string) (l d : Z) (now : GoTime) (id : Z)
  (r : gen_Member) :
  has_key uid my (update_row l d now id r) = has_key uid my r.
Proof. unfold update_row. destruct (has_id id r); reflexivity. Qed.

Lemma NoDup_id_unique (t : Table) (x y : gen_Member) :
  NoDup (map g_ID t) -> In x t -> In y t -> g_ID x = g_ID y -> x = y.
Proof.
  induction t as [| r t IH]; cbn; intros Hnd Hx Hy E; [destruct Hx |].
  inversion Hnd as [| ? ? Hnot Hnd']; subst.
  destruct Hx as [-> | Hx], Hy as [-> | Hy]; auto.
  - exfalso. apply Hnot. rewrite E. apply in_map. assumption.
  - exfalso. apply Hnot. rewrite <- E. apply in_map. assumption.
Qed.

Lemma map_update_row_ids (l d : Z) (now : GoTime) (id : Z) (t : Table) :
  map g_ID (map (update_row l d now id) t) = map g_ID t.
Proof.
  rewrite map_map. apply map_ext. intros r. unfold update_row.
  destruct (has_id id r); reflexivity.
Qed.

Lemma Forall2_map_self (R : gen_Member -> gen_Member -> Prop)
  (f : gen_Member -> gen_Member) (t : Table) :
  (forall x, In x t -> R x (f x)) -> Forall2 R t (map f t).
Proof.
  induction t as [| x t IH]; cbn; intros H; constructor.
  - apply H. left. reflexivity.
  - apply IH. intros y Hy. apply H. right. assumption.
Qed.

Lemma genMemberToMember_fields (r : gen_Member) (m : Member) :
  genMemberToMember r = Ok m ->
  ID m = g_ID r /\ SlackUID m = g_SlackUid r /\
  ReceivedLikes m = g_ReceivedLikes r /\
  ReceivedDislikes m = g_ReceivedDislikes r /\
  CreatedAt m = g_CreatedAt r /\ UpdatedAt m = g_UpdatedAt r.
Proof.
  unfold genMemberToMember.
  destruct (NewMonthYearString (g_MonthYear r)); [| discriminate].
  intros [= <-]. cbn. repeat split.
Qed.

(** Whether a row converts depends on its [month_year] alone. *)
Lemma genMemberToMember_update_row (l d : Z) (now : GoTime) (r : gen_Member)
  (m : Member) :
  genMemberToMember r = Ok m ->
  genMemberToMember (set_counters l d now r)
  = Ok (mkMember (ID m) (Date m) (SlackUID m) l d (CreatedAt m) now).
Proof.
  unfold genMemberToMember. cbn.
  destruct (NewMonthYearString (g_MonthYear r)); [| discriminate].
  intros [= <-]. reflexivity.
Qed.

(* ------------------------------------------------------------------ *)
(** ** The service calls, as equations *)

Lemma FindMember_eq (uid : string) (date : MonthYear) (s : Store) :
  FindMember uid date s =
  (match find (has_key uid date) (members s) with
   | Some r => genMemberToMember r
   | None => Err ErrNotFound
   end,
   journal_add [call_FindMember uid date] s).
Proof.
  unfold FindMember, bind, called, query, q_FindMember, journal_add. cbn.
  destruct (find (has_key uid date) (members s)); reflexivity.
Qed.

Lemma UpdateMember_eq (now : GoTime) (id : Z) (upd : MemberUpdate)
  (s : Store) :
  UpdateMember now id upd s =
  match find (has_id id) (members s) with
  | None =>
      (Err ErrNotFound,
       journal_add [call_UpdateMember id upd; call_FindMemberByID id] s)
  | Some r =>
      match genMemberToMember r with
      | Err err =>
          (Err err,
           journal_add [call_UpdateMember id upd; call_FindMemberByID id] s)
      | Ok m =>
          let m2 := apply_MemberUpdate upd m in
          (genMemberToMember
             (set_counters (ReceivedLikes m2) (ReceivedDislikes m2) now r),
           mkStore
             (map (update_row (ReceivedLikes m2) (ReceivedDislikes m2) now id)
                  (members s))
             (journal s ++ [call_UpdateMember id upd; call_FindMemberByID id]))
      end
  end.
Proof.
  unfold UpdateMember, FindMemberByID, bind, called, query, exec,
    q_FindMemberByID, q_UpdateMember, journal_add.
  cbn [members journal fst snd].
  rewrite <- app_assoc. cbn [app].
  destruct (find (has_id id) (members s)) as [r |] eqn:F; cbn;
    [| reflexivity].
  destruct (genMemberToMember r) as [m |] eqn:G; cbn; [| reflexivity].
  rewrite find_map_stable by (intros; apply has_id_update_row).
  rewrite F. cbn.
  unfold update_row at 1.
  apply find_some in F. destruct F as [_ ->]. reflexivity.
Qed.

Lemma CreateMember_eq (now : GoTime) (m : Member) (s : Store) :
  SlackUID m <> "" ->
  CreateMember now m s =
  if existsb (has_key (SlackUID m) (Date m)) (members s)
  then ((Some (Errorf "CreateMember:" sqlite_ErrConstraintUnique),
         with_times now now m),
        journal_add [call_CreateMember (Some m)] s)
  else ((None,
         mkMember (next_rowid (members s)) (Date m) (SlackUID m) 0 0 now now),
        mkStore
          (members s ++
             [mkRow (next_rowid (members s)) (Date m) (SlackUID m) 0 0
                    now now])
          (journal s ++ [call_CreateMember (Some m)])).
Proof.
  intros N.
  unfold CreateMember, bind, called, exec, q_CreateMember, Validate,
    journal_add.
  destruct (String.eqb_spec (SlackUID m) ""); [contradiction |].
  cbn.
  destruct (existsb (has_key (SlackUID m) (Date m)) (members s));
    reflexivity.
Qed.

(* ------------------------------------------------------------------ *)
(** ** The frame of an update *)

Lemma kept_by_refl (id : Z) (upd : MemberUpdate) (r : gen_Member) :
  kept_by id upd r r.
Proof. unfold kept_by. repeat split; reflexivity. Qed.

Lemma apply_MemberUpdate_fields (upd : MemberUpdate) (m : Member) :
  ID (apply_MemberUpdate upd m) = ID m /\
  (upd_ReceivedLikes upd = None ->
     ReceivedLikes (apply_MemberUpdate upd m) = ReceivedLikes m) /\
  (upd_ReceivedDislikes upd = None ->
     ReceivedDislikes (apply_MemberUpdate upd m) = ReceivedDislikes m) /\
  (forall v, upd_ReceivedLikes upd = Some v ->
     ReceivedLikes (apply_MemberUpdate upd m) = v) /\
  (forall v, upd_ReceivedDislikes upd = Some v ->
     ReceivedDislikes (apply_MemberUpdate upd m) = v).
Proof.
  unfold apply_MemberUpdate.
  destruct (upd_ReceivedLikes upd), (upd_ReceivedDislikes upd); cbn;
    repeat split; congruence.
Qed.

(** C9.  On a table whose ids are distinct, [UpdateMember id upd] keeps,
    row by row, the id, SlackUID, period and created_at; it keeps the
    likes when [upd.ReceivedLikes] is nil and the dislikes when
    [upd.ReceivedDislikes] is nil; it keeps every row of another id
    whole.  The member it returns has the given id, the counters the
    update names and the new updated_at. *)
Theorem UpdateMember_frame (now : GoTime) (id : Z) (upd : MemberUpdate)
  (s : Store) :
  NoDup (map g_ID (members s)) ->
  Forall2 (kept_by id upd) (members s)
          (members (snd (UpdateMember now id upd s))) /\
  (forall m, fst (UpdateMember now id upd s) = Ok m ->
     ID m = id /\
     (forall v, upd_ReceivedLikes upd = Some v -> ReceivedLikes m = v) /\
     (forall v, upd_ReceivedDislikes upd = Some v ->
                ReceivedDislikes m = v) /\
     UpdatedAt m = now).
Proof.
  intros Hnd. rewrite UpdateMember_eq.
  assert (Hsame : Forall2 (kept_by id upd) (members s) (members s)).
  { rewrite <- (map_id (members s)) at 2. apply Forall2_map_self.
    intros. apply kept_by_refl. }
  destruct (find (has_id id) (members s)) as [r |] eqn:F.
  2:{ cbn. split; [assumption | discriminate]. }
  destruct (genMemberToMember r) as [m0 |] eqn:G.
  2:{ cbn. split; [assumption | discriminate]. }
  cbn [fst snd members].
  destruct (genMemberToMember_fields _ _ G) as (Hid & _ & Hl & Hd & _).
  destruct (apply_MemberUpdate_fields upd m0) as (_ & Kl & Kd & Sl & Sd).
  apply find_some in F. destruct F as [Hin Hr].
  unfold has_id in Hr. apply Z.eqb_eq in Hr.
  split.
  - apply Forall2_map_self. intros x Hx. unfold update_row, has_id.
    destruct (Z.eqb_spec (g_ID x) id) as [E | NE].
    + assert (x = r) by (apply (NoDup_id_unique (members s)); congruence).
      subst x. unfold kept_by. cbn.
      repeat split; try congruence.
      * intros Hn. rewrite (Kl Hn). assumption.
      * intros Hn. rewrite (Kd Hn). assumption.
    + apply kept_by_refl.
  - intros m Hm.
    rewrite (genMemberToMember_update_row _ _ _ _ _ G) in Hm.
    injection Hm as <-. cbn.
    repeat split; try congruence; auto.
Qed.

Lemma UpdateMember_frame_witness :
  Forall2 (kept_by 1 (mkMemberUpdate (Some 9) None)) (members two_rows)
    (members (snd (UpdateMember (mkTime 2023 10 6) 1
                     (mkMemberUpdate (Some 9) None) two_rows))) /\
  (forall m,
     fst (UpdateMember (mkTime 2023 10 6) 1 (mkMemberUpdate (Some 9) None)
            two_rows) = Ok m ->
     ID m = 1 /\
     (forall v, Some 9 = Some v -> ReceivedLikes m = v) /\
     (forall v, @None Z = Some v -> ReceivedDislikes m = v) /\
     UpdatedAt m = mkTime 2023 10 6).
Proof.
  apply (UpdateMember_frame (mkTime 2023 10 6) 1
           (mkMemberUpdate (Some 9) None) two_rows).
  cbn. repeat constructor; cbn; intuition discriminate.
Defined.

(* ------------------------------------------------------------------ *)
(** ** A create that loses the race *)

(** C2 (as the code has it).  [FindMember] has reported not-found, and by
    the time [CreateMember] runs a row of the same (SlackUID, period) is
    there: the handler returns the wrapped UNIQUE-constraint error.  The
    only service call it makes is that [CreateMember]: no second
    [FindMember], no [UpdateMember]; the table is the one it found. *)
Theorem create_conflict_is_returned (clk : Clock) (uid : string)
  (update : Member -> Member) (monthYear : MonthYear) (err : error)
  (s : Store) :
  errors_Is err ErrNotFound = true ->
  uid <> "" ->
  existsb (has_key uid monthYear) (members s) = true ->
  HandleReactionEvent_found clk uid update monthYear (Err err) s =
  (Some (Errorf "HandleReactionAddedEvent CreateMember itemMember:"
           (Errorf "CreateMember:" sqlite_ErrConstraintUnique)),
   mkStore (members s)
           (journal s ++
              [call_CreateMember (Some (Member_literal uid monthYear))])).
Proof.
  intros Hnf Huid Hthere.
  unfold HandleReactionEvent_found, bind. rewrite Hnf.
  rewrite CreateMember_eq by exact Huid.
  cbn [SlackUID Date Member_literal]. rewrite Hthere. reflexivity.
Qed.

Lemma create_conflict_is_returned_witness :
  HandleReactionEvent_found october "U1" like_added "10-2023"
    (Err ErrNotFound) after_rival =
  (Some (Errorf "HandleReactionAddedEvent CreateMember itemMember:"
           (Errorf "CreateMember:" sqlite_ErrConstraintUnique)),
   mkStore (members after_rival)
           (journal after_rival ++
              [call_CreateMember (Some (Member_literal "U1" "10-2023"))])).
Proof.
  apply (create_conflict_is_returned october "U1" like_added "10-2023"
           ErrNotFound after_rival).
  - reflexivity.
  - discriminate.
  - reflexivity.
Defined.

(** C2 (as stated) fails.  The handler looks U1 up in the empty table and
    gets not-found; a rival delivery then creates U1 and counts its like;
    the handler resumes, its create hits the UNIQUE constraint, and it
    returns that error: U1 keeps 1 like, this delivery's like is lost. *)
Lemma create_conflict_not_retried :
  fst (FindMember "U1" "10-2023" empty_store) = Err ErrNotFound /\
  map g_ReceivedLikes (members after_rival) = [1] /\
  fst (HandleReactionEvent_found october "U1" like_added "10-2023"
         (fst (FindMember "U1" "10-2023" empty_store)) after_rival)
  = Some (Errorf "HandleReactionAddedEvent CreateMember itemMember:"
            (Errorf "CreateMember:" sqlite_ErrConstraintUnique)) /\
  map g_ReceivedLikes
    (members
       (snd (HandleReactionEvent_found october "U1" like_added "10-2023"
               (fst (FindMember "U1" "10-2023" empty_store)) after_rival)))
  = [1].
Proof. repeat split. Qed.

(* ------------------------------------------------------------------ *)
(** ** What one reconciliation does to the table *)

Lemma find_by_id (t : Table) (r : gen_Member) :
  NoDup (map g_ID t) -> In r t -> find (has_id (g_ID r)) t = Some r.
Proof.
  intros Hnd Hin.
  destruct (find (has_id (g_ID r)) t) as [x |] eqn:F.
  - apply find_some in F. destruct F as [Hx Hid].
    unfold has_id in Hid. apply Z.eqb_eq in Hid.
    f_equal. apply (NoDup_id_unique t); assumption.
  - pose proof (find_none _ _ F r Hin) as H.
    unfold has_id in H. rewrite Z.eqb_refl in H. discriminate.
Qed.

Lemma existsb_find (p : gen_Member -> bool) (t : Table) :
  find p t = None -> existsb p t = false.
Proof.
  induction t as [| x t IH]; cbn; [reflexivity |].
  destruct (p x); [discriminate | assumption].
Qed.

Lemma fold_max_ge (t : Table) (a : Z) :
  a <= fold_left (fun acc x => Z.max acc (g_ID x)) t a /\
  forall x, In x t -> g_ID x <= fold_left (fun acc x => Z.max acc (g_ID x)) t a.
Proof.
  revert a. induction t as [| y t IH]; intros a; cbn.
  - split; [lia | intros x []].
  - destruct (IH (Z.max a (g_ID y))) as [H1 H2]. split; [lia |].
    intros x [<- | Hx]; [lia | auto].
Qed.

(** The id an INSERT assigns is above every id of the table. *)
Lemma next_rowid_fresh (t : Table) (x : gen_Member) :
  In x t -> g_ID x < next_rowid t.
Proof.
  destruct t as [| r t]; [intros [] |].
  unfold next_rowid.
  destruct (fold_max_ge t (g_ID r)) as [H1 H2].
  intros [<- | Hx]; [lia |]. specialize (H2 x Hx). lia.
Qed.

Lemma map_update_row_other (l d : Z) (now : GoTime) (id : Z) (t : Table) :
  (forall x, In x t -> g_ID x <> id) ->
  map (update_row l d now id) t = t.
Proof.
  intros H. rewrite <- (map_id t) at 2. apply map_ext_in.
  intros x Hx. unfold update_row, has_id.
  destruct (Z.eqb_spec (g_ID x) id) as [E | _]; [| reflexivity].
  exfalso. exact (H x Hx E).
Qed.

Lemma find_other_id (id : Z) (t : Table) :
  (forall x, In x t -> g_ID x <> id) -> find (has_id id) t = None.
Proof.
  intros H. destruct (find (has_id id) t) as [x |] eqn:F; [| reflexivity].
  apply find_some in F. destruct F as [Hx Hid].
  unfold has_id in Hid. apply Z.eqb_eq in Hid.
  exfalso. exact (H x Hx Hid).
Qed.

Lemma find_app_none (p : gen_Member -> bool) (t u : Table) :
  find p t = None -> find p (t ++ u) = find p u.
Proof.
  induction t as [| x t IH]; cbn; [reflexivity |].
  destruct (p x); [discriminate | assumption].
Qed.

(** A row of a rendered month converts. *)
Lemma genMemberToMember_valid (t : GoTime) (r : gen_Member) :
  valid_time t -> g_MonthYear r = NewMonthYear t ->
  genMemberToMember r =
  Ok (mkMember (g_ID r) (g_MonthYear r) (g_SlackUid r) (g_ReceivedLikes r)
               (g_ReceivedDislikes r) (g_CreatedAt r) (g_UpdatedAt r)).
Proof.
  intros Hv E. unfold genMemberToMember. rewrite E.
  rewrite NewMonthYearString_NewMonthYear by assumption. reflexivity.
Qed.


Section Reconcile.

Variable clk : Clock.
Variable uid : string.
Variable update : Member -> Member.
Variable s : Store.

Hypothesis clock_valid : valid_time (at_handler clk).
Hypothesis ids_distinct : NoDup (map g_ID (members s)).
Hypothesis uid_human : uid <> "" /\ uid <> "USLACKBOT".
Hypothesis update_keeps_id : forall m, ID (update m) = ID m.

Let monthYear : MonthYear := NewMonthYear (at_handler clk).

(** The member is there: its row, and only it, takes the counters
    [update] computes. *)
Lemma HandleReactionEvent_existing (r : gen_Member) :
  find (has_key uid monthYear) (members s) = Some r ->
  let m' := update
              (mkMember (g_ID r) (g_MonthYear r) (g_SlackUid r)
                        (g_ReceivedLikes r) (g_ReceivedDislikes r)
                        (g_CreatedAt r) (g_UpdatedAt r)) in
  fst (HandleReactionEvent clk uid update s) = None /\
  members (snd (HandleReactionEvent clk uid update s)) =
  map (update_row (ReceivedLikes m') (ReceivedDislikes m') (at_update clk)
                  (g_ID r))
      (members s).
Proof.
  intros F m'. destruct uid_human as [Hne Hbot].
  unfold HandleReactionEvent.
  destruct (String.eqb_spec uid "USLACKBOT"); [contradiction |].
  destruct (String.eqb_spec uid ""); [contradiction |].
  cbn [orb]. unfold bind. rewrite FindMember_eq.
  fold monthYear. rewrite F.
  pose proof (find_some _ _ F) as [Hin Hkey].
  unfold has_key in Hkey. apply andb_true_iff in Hkey.
  destruct Hkey as [_ Hmy]. apply String.eqb_eq in Hmy.
  assert (G : genMemberToMember r = Ok
                (mkMember (g_ID r) (g_MonthYear r) (g_SlackUid r)
                   (g_ReceivedLikes r) (g_ReceivedDislikes r)
                   (g_CreatedAt r) (g_UpdatedAt r)))
    by (apply (genMemberToMember_valid (at_handler clk)); assumption).
  rewrite G. unfold HandleReactionEvent_found, bind.
  rewrite UpdateMember_eq. fold m'.
  assert (Eid : ID m' = g_ID r) by (unfold m'; rewrite update_keeps_id; reflexivity).
  rewrite Eid. cbn [members journal_add].
  rewrite (find_by_id _ _ ids_distinct Hin). rewrite G.
  cbv zeta.
  rewrite (genMemberToMember_update_row _ _ _ _ _ G).
  cbn. split; reflexivity.
Qed.

(** The member is not there: a row is appended for it, with the
    counters [update] computes from zero. *)
Lemma HandleReactionEvent_absent :
  find (has_key uid monthYear) (members s) = None ->
  let id := next_rowid (members s) in
  let m' := update (mkMember id monthYear uid 0 0
                             (at_create clk) (at_create clk)) in
  fst (HandleReactionEvent clk uid update s) = None /\
  members (snd (HandleReactionEvent clk uid update s)) =
  members s ++
    [mkRow id monthYear uid (ReceivedLikes m') (ReceivedDislikes m')
           (at_create clk) (at_update clk)].
Proof.
  intros F id m'. destruct uid_human as [Hne Hbot].
  unfold HandleReactionEvent.
  destruct (String.eqb_spec uid "USLACKBOT"); [contradiction |].
  destruct (String.eqb_spec uid ""); [contradiction |].
  cbn [orb]. unfold bind. rewrite FindMember_eq.
  fold monthYear. rewrite F.
  unfold HandleReactionEvent_found, bind.
  cbn [errors_Is error_eqb orb].
  rewrite CreateMember_eq by exact Hne.
  cbn [SlackUID Date Member_literal members journal_add].
  rewrite (existsb_find _ _ F).
  rewrite UpdateMember_eq. fold id. fold m'.
  assert (Eid : ID m' = id) by (unfold m'; rewrite update_keeps_id; reflexivity).
  rewrite Eid. cbn [members].
  assert (Hfresh : forall x, In x (members s) -> g_ID x <> id).
  { intros x Hx. pose proof (next_rowid_fresh _ _ Hx). unfold id. lia. }
  rewrite (find_app_none _ _ _ (find_other_id _ _ Hfresh)).
  cbn [find].
  assert (Hh : has_id id (mkRow id monthYear uid 0 0
                            (at_create clk) (at_create clk)) = true)
    by (unfold has_id; cbn; apply Z.eqb_refl).
  rewrite Hh.
  assert (G : genMemberToMember (mkRow id monthYear uid 0 0
                                   (at_create clk) (at_create clk))
              = Ok (mkMember id monthYear uid 0 0
                             (at_create clk) (at_create clk))).
  { rewrite (genMemberToMember_valid (at_handler clk)); auto. }
  rewrite G. cbv zeta.
  rewrite (genMemberToMember_update_row _ _ _ _ _ G).
  cbn [fst snd members apply_MemberUpdate upd_ReceivedLikes
       upd_ReceivedDislikes with_ReceivedLikes with_ReceivedDislikes
       ReceivedLikes ReceivedDislikes].
  split; [reflexivity |].
  rewrite map_app. rewrite (map_update_row_other _ _ _ _ _ Hfresh).
  cbn. unfold update_row, has_id. cbn. rewrite Z.eqb_refl. reflexivity.
Qed.

End Reconcile.

(* ------------------------------------------------------------------ *)
(** ** Counters of one member in one period *)

Lemma NoDup_ids_append (t : Table) (r : gen_Member) :
  NoDup (map g_ID t) -> (forall x, In x t -> g_ID x <> g_ID r) ->
  NoDup (map g_ID (t ++ [r])).
Proof.
  intros Hnd Hfresh. rewrite map_app. cbn.
  apply NoDup_app; [assumption | repeat constructor; intros [] |].
  intros a Ha [<- | []].
  apply in_map_iff in Ha. destruct Ha as (x & Ex & Hx).
  exact (Hfresh x Hx Ex).
Qed.

(** One reconciliation, seen through the counters of its target: they
    become what [update] makes of the stored ones (of zero for a member
    never seen), the handler returns [nil], ids stay distinct. *)
Lemma HandleReactionEvent_counters (clk : Clock) (uid : string)
  (update : Member -> Member) (fl fd : Z -> Z) (s : Store) :
  valid_time (at_handler clk) ->
  NoDup (map g_ID (members s)) ->
  uid <> "" /\ uid <> "USLACKBOT" ->
  (forall m, ID (update m) = ID m /\
             ReceivedLikes (update m) = fl (ReceivedLikes m) /\
             ReceivedDislikes (update m) = fd (ReceivedDislikes m)) ->
  fst (HandleReactionEvent clk uid update s) = None /\
  NoDup (map g_ID (members (snd (HandleReactionEvent clk uid update s)))) /\
  counters uid (NewMonthYear (at_handler clk))
           (members (snd (HandleReactionEvent clk uid update s)))
  = Some (fl (fst (counters_or_zero uid (NewMonthYear (at_handler clk))
                                    (members s))),
          fd (snd (counters_or_zero uid (NewMonthYear (at_handler clk))
                                    (members s)))).
Proof.
  intros Hv Hnd Hu Hup.
  assert (Hid : forall m, ID (update m) = ID m) by (intros m; apply Hup).
  unfold counters_or_zero, counters.
  destruct (find (has_key uid (NewMonthYear (at_handler clk))) (members s))
    as [r |] eqn:F.
  - destruct (HandleReactionEvent_existing clk uid update s Hv Hnd Hu Hid r F)
      as [Hres Hmem].
    rewrite Hres, Hmem. split; [reflexivity |]. split.
    + rewrite map_update_row_ids. assumption.
    + rewrite find_map_stable by (intros; apply has_key_update_row).
      rewrite F. cbn [option_map]. unfold update_row, has_id.
      rewrite Z.eqb_refl. cbn.
      destruct (Hup (mkMember (g_ID r) (g_MonthYear r) (g_SlackUid r)
                       (g_ReceivedLikes r) (g_ReceivedDislikes r)
                       (g_CreatedAt r) (g_UpdatedAt r))) as (_ & -> & ->).
      reflexivity.
  - destruct (HandleReactionEvent_absent clk uid update s Hv Hu Hid F)
      as [Hres Hmem].
    rewrite Hres, Hmem. split; [reflexivity |]. split.
    + apply NoDup_ids_append; [assumption |].
      intros x Hx. cbn. pose proof (next_rowid_fresh _ _ Hx). lia.
    + rewrite (find_app_none _ _ _ F). cbn [find].
      unfold has_key. cbn [g_SlackUid g_MonthYear].
      rewrite !String.eqb_refl. cbn.
      destruct (Hup (mkMember (next_rowid (members s))
                       (NewMonthYear (at_handler clk)) uid 0 0
                       (at_create clk) (at_create clk))) as (_ & -> & ->).
      reflexivity.
Qed.

Lemma closures_spec (m : Member) :
  (ID (like_added m) = ID m /\
   ReceivedLikes (like_added m) = int_add (ReceivedLikes m) 1 /\
   ReceivedDislikes (like_added m) = ReceivedDislikes m) /\
  (ID (dislike_added m) = ID m /\
   ReceivedLikes (dislike_added m) = ReceivedLikes m /\
   ReceivedDislikes (dislike_added m) = int_add (ReceivedDislikes m) 1) /\
  (ID (like_removed m) = ID m /\
   ReceivedLikes (like_removed m) = go_max (int_sub (ReceivedLikes m) 1) 0 /\
   ReceivedDislikes (like_removed m) = ReceivedDislikes m) /\
  (ID (dislike_removed m) = ID m /\
   ReceivedLikes (dislike_removed m) = ReceivedLikes m /\
   ReceivedDislikes (dislike_removed m)
   = go_max (int_sub (ReceivedDislikes m) 1) 0).
Proof. repeat split. Qed.

Lemma int_add_1 (x : Z) : in_int x -> x < max_int -> int_add x 1 = x + 1.
Proof.
  unfold int_add. intros H L. apply wrap_in_int.
  unfold in_int, min_int, max_int in *. lia.
Qed.

Lemma clamp_sub_1 (x : Z) :
  in_int x -> min_int < x -> go_max (int_sub x 1) 0 = Z.max (x - 1) 0.
Proof.
  unfold int_sub. intros H L. rewrite go_max_spec, wrap_in_int; [reflexivity |].
  unfold in_int, min_int, max_int in *. lia.
Qed.

(** C6.  On a stored member whose counters are (l, d): an added [+1]
    makes them (l + 1, d); an added [-1], (l, d + 1); a removed [+1],
    (max (l - 1) 0, d); a removed [-1], (l, max (d - 1) 0); the handler
    returns [nil].  The increments are those of a 64-bit int below its
    maximum, the decrements those of one above its minimum. *)
Theorem reaction_delta (clk : Clock) (e : ReactionEvent) (s : Store)
  (l d : Z) :
  valid_time (at_handler clk) ->
  NoDup (map g_ID (members s)) ->
  ItemUser e <> "" /\ ItemUser e <> "USLACKBOT" ->
  counters (ItemUser e) (NewMonthYear (at_handler clk)) (members s)
  = Some (l, d) ->
  in_int l -> in_int d ->
  (Reaction e = ThumbsUp -> l < max_int ->
     fst (HandleReactionAddedEvent clk e s) = None /\
     counters (ItemUser e) (NewMonthYear (at_handler clk))
              (members (snd (HandleReactionAddedEvent clk e s)))
     = Some (l + 1, d)) /\
  (Reaction e = ThumbsDown -> d < max_int ->
     fst (HandleReactionAddedEvent clk e s) = None /\
     counters (ItemUser e) (NewMonthYear (at_handler clk))
              (members (snd (HandleReactionAddedEvent clk e s)))
     = Some (l, d + 1)) /\
  (Reaction e = ThumbsUp -> min_int < l ->
     fst (HandleReactionRemovedEvent clk e s) = None /\
     counters (ItemUser e) (NewMonthYear (at_handler clk))
              (members (snd (HandleReactionRemovedEvent clk e s)))
     = Some (Z.max (l - 1) 0, d)) /\
  (Reaction e = ThumbsDown -> min_int < d ->
     fst (HandleReactionRemovedEvent clk e s) = None /\
     counters (ItemUser e) (NewMonthYear (at_handler clk))
              (members (snd (HandleReactionRemovedEvent clk e s)))
     = Some (l, Z.max (d - 1) 0)).
Proof.
  intros Hv Hnd Hu Hc Hl Hd.
  assert (Hz : counters_or_zero (ItemUser e) (NewMonthYear (at_handler clk))
                                (members s) = (l, d))
    by (unfold counters_or_zero; rewrite Hc; reflexivity).
  unfold HandleReactionAddedEvent, HandleReactionRemovedEvent.
  split; [| split; [| split]]; intros R B; rewrite R;
    cbn [String.eqb Ascii.eqb Bool.eqb ThumbsUp ThumbsDown].
  - destruct (HandleReactionEvent_counters clk (ItemUser e) like_added
                (fun x => int_add x 1) (fun x => x) s Hv Hnd Hu)
      as (H1 & _ & H3); [intros m; apply closures_spec |].
    rewrite Hz in H3. cbn [fst snd] in H3.
    rewrite int_add_1 in H3 by assumption. split; assumption.
  - destruct (HandleReactionEvent_counters clk (ItemUser e) dislike_added
                (fun x => x) (fun x => int_add x 1) s Hv Hnd Hu)
      as (H1 & _ & H3); [intros m; apply closures_spec |].
    rewrite Hz in H3. cbn [fst snd] in H3.
    rewrite int_add_1 in H3 by assumption. split; assumption.
  - destruct (HandleReactionEvent_counters clk (ItemUser e) like_removed
                (fun x => go_max (int_sub x 1) 0) (fun x => x) s Hv Hnd Hu)
      as (H1 & _ & H3); [intros m; apply closures_spec |].
    rewrite Hz in H3. cbn [fst snd] in H3.
    rewrite clamp_sub_1 in H3 by assumption. split; assumption.
  - destruct (HandleReactionEvent_counters clk (ItemUser e) dislike_removed
                (fun x => x) (fun x => go_max (int_sub x 1) 0) s Hv Hnd Hu)
      as (H1 & _ & H3); [intros m; apply closures_spec |].
    rewrite Hz in H3. cbn [fst snd] in H3.
    rewrite clamp_sub_1 in H3 by assumption. split; assumption.
Qed.

Lemma reaction_delta_witness :
  fst (HandleReactionAddedEvent october (mkReaction "+1" "U1") one_member)
  = None /\
  counters "U1" (NewMonthYear (at_handler october))
    (members (snd (HandleReactionAddedEvent october (mkReaction "+1" "U1")
                     one_member)))
  = Some (4 + 1, 2).
Proof.
  apply (proj1 (reaction_delta october (mkReaction "+1" "U1") one_member 4 2
                  ltac:(unfold valid_time; cbn; lia)
                  ltac:(cbn; repeat constructor; cbn; tauto)
                  ltac:(split; discriminate)
                  eq_refl
                  ltac:(unfold in_int, min_int, max_int; lia)
                  ltac:(unfold in_int, min_int, max_int; lia))).
  - reflexivity.
  - unfold max_int. lia.
Defined.

(* ------------------------------------------------------------------ *)
(** ** Counters stay within bounds *)

Lemma bounded_weaken (B B' : Z) (t : Table) :
  B <= B' -> bounded B t -> bounded B' t.
Proof.
  intros Hle. unfold bounded. apply Forall_impl. intros r. lia.
Qed.

Lemma bounded_update_row (B l d : Z) (now : GoTime) (id : Z) (t : Table) :
  0 <= l <= B -> 0 <= d <= B -> bounded B t ->
  bounded B (map (update_row l d now id) t).
Proof.
  intros Hl Hd. unfold bounded. rewrite Forall_map. apply Forall_impl.
  intros r Hr. unfold update_row. destruct (has_id id r); cbn; auto.
Qed.

Lemma bounded_append_zero (B : Z) (t : Table) (id : Z) (my uid : string)
  (c u : GoTime) :
  0 <= B -> bounded B t -> bounded B (t ++ [mkRow id my uid 0 0 c u]).
Proof.
  intros HB Ht. unfold bounded. apply Forall_app. split; [assumption |].
  constructor; [cbn; lia | constructor].
Qed.

Lemma UpdateMember_both_members (now : GoTime) (id l d : Z) (s : Store) :
  members (snd (UpdateMember now id (mkMemberUpdate (Some l) (Some d)) s))
  = members s \/
  members (snd (UpdateMember now id (mkMemberUpdate (Some l) (Some d)) s))
  = map (update_row l d now id) (members s).
Proof.
  rewrite UpdateMember_eq.
  destruct (find (has_id id) (members s)) as [r |]; [| left; reflexivity].
  destruct (genMemberToMember r); [right | left]; reflexivity.
Qed.

Lemma CreateMember_members (now : GoTime) (m : Member) (s : Store) :
  (fst (fst (CreateMember now m s)) <> None /\
   members (snd (CreateMember now m s)) = members s) \/
  (fst (fst (CreateMember now m s)) = None /\
   ReceivedLikes (snd (fst (CreateMember now m s))) = 0 /\
   ReceivedDislikes (snd (fst (CreateMember now m s))) = 0 /\
   exists id, members (snd (CreateMember now m s))
              = members s ++ [mkRow id (Date m) (SlackUID m) 0 0 now now]).
Proof.
  destruct (String.eqb_spec (SlackUID m) "") as [E | N].
  - left. unfold CreateMember, bind, called, Validate. rewrite E. cbn.
    split; [discriminate | reflexivity].
  - rewrite (CreateMember_eq now m s N).
    destruct (existsb (has_key (SlackUID m) (Date m)) (members s)); cbn.
    + left. split; [discriminate | reflexivity].
    + right. repeat split. eexists. reflexivity.
Qed.

Section Bounded.

Variable B : Z.
Variable update : Member -> Member.

Hypothesis B_nonneg : 0 <= B.

(** [update] moves either counter up by at most one and never below 0. *)
Hypothesis update_step : forall m,
  0 <= ReceivedLikes m <= B -> 0 <= ReceivedDislikes m <= B ->
  0 <= ReceivedLikes (update m) <= B + 1 /\
  0 <= ReceivedDislikes (update m) <= B + 1.

Lemma HandleReactionEvent_found_bounded (clk : Clock) (uid : string)
  (monthYear : MonthYear) (found : result Member) (s : Store) :
  bounded B (members s) ->
  (forall m, found = Ok m ->
     0 <= ReceivedLikes m <= B /\ 0 <= ReceivedDislikes m <= B) ->
  bounded (B + 1)
    (members (snd (HandleReactionEvent_found clk uid update monthYear
                     found s))).
Proof.
  intros Hb Hfound.
  assert (Hfinish : forall m s0,
    bounded B (members s0) ->
    0 <= ReceivedLikes m <= B /\ 0 <= ReceivedDislikes m <= B ->
    bounded (B + 1)
      (members (snd
        ((r <- UpdateMember (at_update clk) (ID (update m))
                (mkMemberUpdate (Some (ReceivedLikes (update m)))
                                (Some (ReceivedDislikes (update m)))) ;;
          match r with
          | Err err => ret (Some err)
          | Ok _ => ret None
          end) s0)))).
  { intros m s0 Hs0 [Hl Hd]. unfold bind.
    destruct (UpdateMember_both_members (at_update clk) (ID (update m))
                (ReceivedLikes (update m)) (ReceivedDislikes (update m)) s0)
      as [E | E];
      destruct (UpdateMember (at_update clk) (ID (update m)) _ s0)
        as [[m1 | e1] s1]; cbn in *; rewrite E.
    1,2: apply (bounded_weaken B); [lia | assumption].
    1,2: destruct (update_step m Hl Hd);
         apply bounded_update_row; try assumption;
         apply (bounded_weaken B); [lia | assumption]. }
  unfold HandleReactionEvent_found.
  destruct found as [mem | err].
  - apply Hfinish; auto.
  - destruct (errors_Is err ErrNotFound).
    + unfold bind at 1.
      pose proof (CreateMember_members (at_create clk)
                    (Member_literal uid monthYear) s) as Hc.
      destruct (CreateMember (at_create clk) (Member_literal uid monthYear) s)
        as [[cerr m] s1]. cbn [fst snd] in Hc.
      destruct Hc as [[Hne E] | (-> & Hl & Hd & id & E)].
      * destruct cerr; [| contradiction]. cbn. rewrite E.
        apply (bounded_weaken B); [lia | assumption].
      * apply Hfinish.
        -- rewrite E. apply bounded_append_zero; assumption.
        -- rewrite Hl, Hd. lia.
    + cbn. apply (bounded_weaken B); [lia | assumption].
Qed.

Lemma HandleReactionEvent_bounded (clk : Clock) (uid : string) (s : Store) :
  bounded B (members s) ->
  bounded (B + 1) (members (snd (HandleReactionEvent clk uid update s))).
Proof.
  intros Hb. unfold HandleReactionEvent.
  destruct ((uid =? "USLACKBOT")%string || (uid =? "")%string).
  - cbn. apply (bounded_weaken B); [lia | assumption].
  - unfold bind. rewrite FindMember_eq.
    apply HandleReactionEvent_found_bounded; [assumption |].
    intros m Hm.
    destruct (find (has_key uid (NewMonthYear (at_handler clk))) (members s))
      as [r |] eqn:F; [| discriminate].
    destruct (genMemberToMember_fields _ _ Hm) as (_ & _ & -> & -> & _).
    apply find_some in F. destruct F as [Hin _].
    unfold bounded in Hb. rewrite Forall_forall in Hb. exact (Hb r Hin).
Qed.

End Bounded.

Lemma closures_step (B : Z) (m : Member) :
  B < max_int ->
  0 <= ReceivedLikes m <= B -> 0 <= ReceivedDislikes m <= B ->
  (0 <= ReceivedLikes (like_added m) <= B + 1 /\
   0 <= ReceivedDislikes (like_added m) <= B + 1) /\
  (0 <= ReceivedLikes (dislike_added m) <= B + 1 /\
   0 <= ReceivedDislikes (dislike_added m) <= B + 1) /\
  (0 <= ReceivedLikes (like_removed m) <= B + 1 /\
   0 <= ReceivedDislikes (like_removed m) <= B + 1) /\
  (0 <= ReceivedLikes (dislike_removed m) <= B + 1 /\
   0 <= ReceivedDislikes (dislike_removed m) <= B + 1).
Proof.
  intros HB Hl Hd.
  assert (Il : in_int (ReceivedLikes m))
    by (unfold in_int, min_int, max_int in *; lia).
  assert (Id : in_int (ReceivedDislikes m))
    by (unfold in_int, min_int, max_int in *; lia).
  cbn.
  rewrite !int_add_1 by (assumption || lia).
  rewrite !clamp_sub_1 by (assumption || (unfold min_int; lia)).
  lia.
Qed.

Lemma dispatch_bounded (B : Z) (clk : Clock) (ev : Event) (s : Store) :
  0 <= B < max_int -> bounded B (members s) ->
  bounded (B + 1) (members (snd (dispatch clk ev s))).
Proof.
  intros [HB HM] Hb.
  assert (Hsame : bounded (B + 1) (members s))
    by (apply (bounded_weaken B); [lia | assumption]).
  destruct ev as [e | e]; cbn [dispatch];
    unfold HandleReactionAddedEvent, HandleReactionRemovedEvent;
    destruct (Reaction e =? ThumbsUp)%string;
    try destruct (Reaction e =? ThumbsDown)%string;
    try exact Hsame;
    apply HandleReactionEvent_bounded; try assumption;
    intros m Hl Hd; apply (closures_step B m HM Hl Hd).
Qed.

Lemma deliver_bounded (evs : list (Clock * Event)) (B : Z) (s : Store) :
  0 <= B -> B + Z.of_nat (List.length evs) <= max_int ->
  bounded B (members s) ->
  bounded (B + Z.of_nat (List.length evs)) (members (snd (deliver evs s))).
Proof.
  revert B s. induction evs as [| [clk ev] evs IH]; intros B s HB Hlen Hb.
  - cbn. rewrite Z.add_0_r. assumption.
  - cbn [deliver List.length] in Hlen |- *.
    rewrite Nat2Z.inj_succ in Hlen |- *. unfold bind at 1.
    pose proof (dispatch_bounded B clk ev s) as Hd.
    destruct (dispatch clk ev s) as [r s1]. cbn [snd] in Hd.
    unfold bind at 1.
    specialize (IH (B + 1) s1).
    destruct (deliver evs s1) as [rs s2]. cbn [snd ret] in *.
    replace (B + Z.succ (Z.of_nat (List.length evs)))
      with (B + 1 + Z.of_nat (List.length evs)) by lia.
    apply IH; [lia | lia |]. apply Hd; [lia | assumption].
Qed.

(** C4.  From a table whose counters lie between 0 and [B], after any
    sequence of deliveries no counter is negative (the sequence being
    short enough for a 64-bit counter to hold [B] plus its length); and a
    counter at zero stays at zero under three removes. *)
Theorem counters_never_negative (evs : list (Clock * Event)) (B : Z)
  (s : Store) :
  0 <= B -> B + Z.of_nat (List.length evs) <= max_int ->
  bounded B (members s) ->
  Forall (fun r => 0 <= g_ReceivedLikes r /\ 0 <= g_ReceivedDislikes r)
         (members (snd (deliver evs s))) /\
  (forall m, ReceivedLikes m = 0 ->
     ReceivedLikes (like_removed (like_removed (like_removed m))) = 0) /\
  (forall m, ReceivedDislikes m = 0 ->
     ReceivedDislikes
       (dislike_removed (dislike_removed (dislike_removed m))) = 0).
Proof.
  intros HB Hlen Hb. split; [| split].
  - pose proof (deliver_bounded evs B s HB Hlen Hb) as H.
    unfold bounded in H. revert H. apply Forall_impl. intros r. lia.
  - intros m E. cbn. rewrite E. reflexivity.
  - intros m E. cbn. rewrite E. reflexivity.
Qed.

Lemma counters_never_negative_witness :
  Forall (fun r => 0 <= g_ReceivedLikes r /\ 0 <= g_ReceivedDislikes r)
    (members (snd (deliver
       [(october, ReactionRemoved (mkReaction "+1" "U1"));
        (october, ReactionRemoved (mkReaction "+1" "U1"));
        (october, ReactionAdded (mkReaction "-1" "U1"));
        (october, ReactionRemoved (mkReaction "+1" "U2"))] one_member))).
Proof.
  apply (counters_never_negative
           [(october, ReactionRemoved (mkReaction "+1" "U1"));
            (october, ReactionRemoved (mkReaction "+1" "U1"));
            (october, ReactionAdded (mkReaction "-1" "U1"));
            (october, ReactionRemoved (mkReaction "+1" "U2"))] 4 one_member).
  - lia.
  - unfold max_int. cbn. lia.
  - repeat constructor; cbn; lia.
Defined.

(* ------------------------------------------------------------------ *)
(** ** An add and its remove *)

Lemma add_remove_cancel (x : Z) :
  0 <= x <= max_int -> go_max (int_sub (int_add x 1) 1) 0 = x.
Proof.
  intros H. destruct (Z.eq_dec x max_int) as [-> | N].
  - reflexivity.
  - assert (I : in_int x) by (unfold in_int, min_int, max_int in *; lia).
    rewrite int_add_1 by (assumption || lia).
    rewrite clamp_sub_1; unfold in_int, min_int, max_int in *; lia.
Qed.

Lemma deliver_two (c1 c2 : Clock) (e1 e2 : Event) (s : Store) :
  deliver [(c1, e1); (c2, e2)] s =
  ([fst (dispatch c1 e1 s);
    fst (dispatch c2 e2 (snd (dispatch c1 e1 s)))],
   snd (dispatch c2 e2 (snd (dispatch c1 e1 s)))).
Proof.
  cbn [deliver]. unfold bind, ret.
  destruct (dispatch c1 e1 s) as [r1 s1]. cbn [fst snd].
  destruct (dispatch c2 e2 s1) as [r2 s2]. reflexivity.
Qed.

Lemma deliver_app (xs ys : list (Clock * Event)) (s : Store) :
  deliver (xs ++ ys) s =
  (fst (deliver xs s) ++ fst (deliver ys (snd (deliver xs s))),
   snd (deliver ys (snd (deliver xs s)))).
Proof.
  revert s. induction xs as [| [clk ev] xs IH]; intros s.
  - cbn. unfold ret. cbn. destruct (deliver ys s). reflexivity.
  - cbn [app deliver]. unfold bind, ret.
    destruct (dispatch clk ev s) as [r s1].
    rewrite IH.
    destruct (deliver xs s1) as [rs s2]. cbn [fst snd].
    destruct (deliver ys s2) as [rs' s3]. reflexivity.
Qed.

Section AddRemove.

Variable e : ReactionEvent.
Variable my : MonthYear.

Hypothesis thumb : Reaction e = ThumbsUp \/ Reaction e = ThumbsDown.
Hypothesis human : ItemUser e <> "" /\ ItemUser e <> "USLACKBOT".

Lemma add_remove_once (c : Clock * Clock) (s : Store) :
  in_period my c -> pair_ready e my s ->
  fst (deliver (add_remove_pairs e [c]) s) = [None; None] /\
  counters_or_zero (ItemUser e) my
    (members (snd (deliver (add_remove_pairs e [c]) s)))
  = counters_or_zero (ItemUser e) my (members s) /\
  NoDup (map g_ID (members (snd (deliver (add_remove_pairs e [c]) s)))).
Proof.
  intros (Hv1 & Hm1 & Hv2 & Hm2) (Hnd & Hl & Hd).
  destruct (counters_or_zero (ItemUser e) my (members s)) as [l d] eqn:Hz.
  cbn [fst snd] in Hl, Hd.
  cbn [add_remove_pairs flat_map app]. rewrite deliver_two.
  cbn [fst snd dispatch].
  unfold HandleReactionAddedEvent, HandleReactionRemovedEvent.
  destruct thumb as [R | R]; rewrite R;
    cbn [String.eqb Ascii.eqb Bool.eqb ThumbsUp ThumbsDown].
  - destruct (HandleReactionEvent_counters (fst c) (ItemUser e) like_added
                (fun x => int_add x 1) (fun x => x) s Hv1 Hnd human)
      as (A1 & A2 & A3); [intros m; apply closures_spec |].
    rewrite Hm1, Hz in A3. cbn [fst snd] in A3.
    destruct (HandleReactionEvent_counters (snd c) (ItemUser e) like_removed
                (fun x => go_max (int_sub x 1) 0) (fun x => x)
                (snd (HandleReactionEvent (fst c) (ItemUser e) like_added s))
                Hv2 A2 human)
      as (B1 & B2 & B3); [intros m; apply closures_spec |].
    rewrite Hm2 in B3. unfold counters_or_zero at 1 2 in B3.
    rewrite A3 in B3. cbn [fst snd] in B3.
    rewrite add_remove_cancel in B3 by assumption.
    rewrite A1, B1. unfold counters_or_zero. rewrite B3. auto.
  - destruct (HandleReactionEvent_counters (fst c) (ItemUser e)
                dislike_added (fun x => x) (fun x => int_add x 1) s
                Hv1 Hnd human)
      as (A1 & A2 & A3); [intros m; apply closures_spec |].
    rewrite Hm1, Hz in A3. cbn [fst snd] in A3.
    destruct (HandleReactionEvent_counters (snd c) (ItemUser e)
                dislike_removed (fun x => x)
                (fun x => go_max (int_sub x 1) 0)
                (snd (HandleReactionEvent (fst c) (ItemUser e)
                        dislike_added s))
                Hv2 A2 human)
      as (B1 & B2 & B3); [intros m; apply closures_spec |].
    rewrite Hm2 in B3. unfold counters_or_zero at 1 2 in B3.
    rewrite A3 in B3. cbn [fst snd] in B3.
    rewrite add_remove_cancel in B3 by assumption.
    rewrite A1, B1. unfold counters_or_zero. rewrite B3. auto.
Qed.

Lemma add_remove_many (cs : list (Clock * Clock)) (s : Store) :
  Forall (in_period my) cs -> pair_ready e my s ->
  Forall (eq None) (fst (deliver (add_remove_pairs e cs) s)) /\
  counters_or_zero (ItemUser e) my
    (members (snd (deliver (add_remove_pairs e cs) s)))
  = counters_or_zero (ItemUser e) my (members s).
Proof.
  revert s. induction cs as [| c cs IH]; intros s Hcs Hs.
  - cbn. split; [constructor | reflexivity].
  - inversion Hcs as [| ? ? Hc Hcs']; subst.
    change (add_remove_pairs e (c :: cs))
      with (add_remove_pairs e [c] ++ add_remove_pairs e cs).
    rewrite deliver_app. cbn [fst snd].
    destruct (add_remove_once c s Hc Hs) as (R1 & C1 & N1).
    assert (Hs1 : pair_ready e my (snd (deliver (add_remove_pairs e [c]) s))).
    { destruct Hs as (_ & Hl & Hd). unfold pair_ready.
      rewrite C1. auto. }
    destruct (IH _ Hcs' Hs1) as [R2 C2].
    split.
    + rewrite R1. cbn. repeat constructor. assumption.
    + rewrite C2. assumption.
Qed.

End AddRemove.

(** C5.  For a [+1] or [-1] reaction on a human target, in a store with
    distinct ids where the target's counters for the period lie within
    the non-negative ints (zero for a member never seen): delivering the
    added event and then the removed event, any number of times, with
    any clocks reading that period, returns [nil] every time and leaves
    both counters of the target at their prior values. *)
Theorem add_then_remove_restores (e : ReactionEvent) (my : MonthYear)
  (cs : list (Clock * Clock)) (s : Store) :
  Reaction e = ThumbsUp \/ Reaction e = ThumbsDown ->
  ItemUser e <> "" /\ ItemUser e <> "USLACKBOT" ->
  Forall (in_period my) cs ->
  NoDup (map g_ID (members s)) ->
  0 <= fst (counters_or_zero (ItemUser e) my (members s)) <= max_int ->
  0 <= snd (counters_or_zero (ItemUser e) my (members s)) <= max_int ->
  Forall (eq None) (fst (deliver (add_remove_pairs e cs) s)) /\
  counters_or_zero (ItemUser e) my
    (members (snd (deliver (add_remove_pairs e cs) s)))
  = counters_or_zero (ItemUser e) my (members s).
Proof.
  intros Ht Hh Hcs Hnd Hl Hd.
  apply add_remove_many; try assumption.
  unfold pair_ready. auto.
Qed.

Lemma add_then_remove_restores_witness :
  Forall (eq None)
    (fst (deliver (add_remove_pairs (mkReaction "+1" "U1")
                     [(october, later_october); (later_october, october)])
                  one_member)) /\
  counters_or_zero "U1" "10-2023"
    (members (snd (deliver (add_remove_pairs (mkReaction "+1" "U1")
                              [(october, later_october);
                               (later_october, october)])
                           one_member)))
  = counters_or_zero "U1" "10-2023" (members one_member).
Proof.
  apply (add_then_remove_restores (mkReaction "+1" "U1") "10-2023"
           [(october, later_october); (later_october, october)] one_member).
  - left. reflexivity.
  - split; discriminate.
  - repeat constructor; cbn; lia.
  - cbn. repeat constructor; cbn; tauto.
  - unfold max_int. cbn. lia.
  - unfold max_int. cbn. lia.
Defined.

(* ------------------------------------------------------------------ *)
(** ** MonthYear: what parses, and what it parses to *)

Lemma is_digit_inv (c : ascii) :
  is_digit c = true ->
  0 <= digit_val c <= 9 /\ digit (digit_val c) = c.
Proof.
  destruct c as [[] [] [] [] [] [] [] []]; intros H;
    try discriminate H; split; try reflexivity; vm_compute; split;
    discriminate.
Qed.

Lemma digit_of_small (a : Z) (c : ascii) :
  0 <= a <= 9 -> digit a = c -> forall n, n mod 10 = a -> digit n = c.
Proof.
  intros Ha <- n E. unfold digit. rewrite E.
  rewrite (Z.mod_small a 10) by lia. reflexivity.
Qed.

Lemma time_Parse_Format (t : GoTime) :
  valid_time t ->
  time_Parse (time_Format t) = Ok (mkTime (t_year t) (t_month t) 0).
Proof.
  intros Hv.
  pose proof (NewMonthYearString_NewMonthYear t Hv) as H.
  unfold NewMonthYearString, NewMonthYear in H.
  destruct (time_Parse (time_Format t)) as [t' |] eqn:E; [| discriminate].
  f_equal.
  destruct Hv as [Hm Hy].
  unfold time_Parse, time_Format in E.
  destruct (digit_is_digit (t_month t / 10)) as [A1 A2].
  destruct (digit_is_digit (t_month t)) as [B1 B2].
  destruct (digit_is_digit (t_year t / 1000)) as [C1 C2].
  destruct (digit_is_digit (t_year t / 100)) as [D1 D2].
  destruct (digit_is_digit (t_year t / 10)) as [E1 E2].
  destruct (digit_is_digit (t_year t)) as [F1 F2].
  rewrite A1, A2, B1, B2, C1, C2, D1, D2, E1, E2, F1, F2 in E.
  cbn [andb Ascii.eqb Bool.eqb] in E.
  assert (Em : 10 * ((t_month t / 10) mod 10) + t_month t mod 10 = t_month t)
    by (Z.to_euclidean_division_equations; lia).
  assert (Ey : 1000 * ((t_year t / 1000) mod 10)
               + 100 * ((t_year t / 100) mod 10)
               + 10 * ((t_year t / 10) mod 10) + t_year t mod 10 = t_year t)
    by (Z.to_euclidean_division_equations; lia).
  rewrite Em, Ey in E.
  destruct (Z.leb_spec 1 (t_month t)); [| lia].
  destruct (Z.leb_spec (t_month t) 12); [| lia].
  cbn in E. injection E as <-. reflexivity.
Qed.

(** A string [time_Parse] accepts is the rendering of the instant it
    returns, and that instant is valid. *)
Lemma time_Parse_inv (s : string) (t : GoTime) :
  time_Parse s = Ok t -> valid_time t /\ time_Format t = s.
Proof.
  unfold time_Parse.
  destruct s as [| m1 [| m2 [| sep [| y1 [| y2 [| y3 [| y4 [| ? ?]]]]]]]];
    try discriminate.
  destruct (is_digit m1) eqn:H1; [| discriminate].
  destruct (is_digit m2) eqn:H2; [| discriminate].
  destruct (Ascii.eqb_spec sep "-"%char) as [-> |]; [| discriminate].
  destruct (is_digit y1) eqn:H3; [| discriminate].
  destruct (is_digit y2) eqn:H4; [| discriminate].
  destruct (is_digit y3) eqn:H5; [| discriminate].
  destruct (is_digit y4) eqn:H6; [| discriminate].
  cbv beta iota delta [andb].
  destruct (Z.leb_spec 1 (10 * digit_val m1 + digit_val m2));
    [| discriminate].
  destruct (Z.leb_spec (10 * digit_val m1 + digit_val m2) 12);
    [| discriminate].
  cbv beta iota delta [andb]. intros E.
  apply (f_equal (fun r => match r with Ok x => x | Err _ => t end)) in E.
  cbv beta iota in E. subst t.
  destruct (is_digit_inv _ H1) as [R1 D1].
  destruct (is_digit_inv _ H2) as [R2 D2].
  destruct (is_digit_inv _ H3) as [R3 D3].
  destruct (is_digit_inv _ H4) as [R4 D4].
  destruct (is_digit_inv _ H5) as [R5 D5].
  destruct (is_digit_inv _ H6) as [R6 D6].
  split.
  - cbv beta iota delta [valid_time t_month t_year]. lia.
  - cbv beta iota delta [time_Format t_month t_year].
    rewrite (digit_of_small _ _ R1 D1)
      by (Z.to_euclidean_division_equations; lia).
    rewrite (digit_of_small _ _ R2 D2)
      by (Z.to_euclidean_division_equations; lia).
    rewrite (digit_of_small _ _ R3 D3)
      by (Z.to_euclidean_division_equations; lia).
    rewrite (digit_of_small _ _ R4 D4)
      by (Z.to_euclidean_division_equations; lia).
    rewrite (digit_of_small _ _ R5 D5)
      by (Z.to_euclidean_division_equations; lia).
    rewrite (digit_of_small _ _ R6 D6)
      by (Z.to_euclidean_division_equations; lia).
    reflexivity.
Qed.

Lemma NewMonthYearString_Ok_inv (s : string) (my : MonthYear) :
  NewMonthYearString s = Ok my ->
  my = s /\ exists t, valid_time t /\ NewMonthYear t = s.
Proof.
  unfold NewMonthYearString.
  destruct (time_Parse s) as [t |] eqn:E; [| discriminate].
  intros [= <-]. destruct (time_Parse_inv _ _ E) as [Hv Hf].
  unfold NewMonthYear. split; [assumption |]. exists t. auto.
Qed.

(** X1.  [NewMonthYearString] accepts exactly the strings [NewMonthYear]
    renders from a valid instant (two digits of a month 01..12, a dash,
    four digits of year), and returns an accepted string unchanged. *)
Theorem NewMonthYearString_accepts_rendered (s : string) (my : MonthYear) :
  NewMonthYearString s = Ok my <->
  my = s /\ exists t, valid_time t /\ NewMonthYear t = s.
Proof.
  split.
  - apply NewMonthYearString_Ok_inv.
  - intros [-> (t & Hv & <-)]. apply NewMonthYearString_NewMonthYear.
    assumption.
Qed.

(** X2.  [Month] of a rendered month is the English name of that month;
    of a string [NewMonthYearString] rejects, an error that wraps
    nothing. *)
Theorem Month_of_rendered (t : GoTime) (s : string) :
  (valid_time t ->
     MonthYear_Month (NewMonthYear t) = Ok (Month_String (t_month t)) /\
     In (Month_String (t_month t))
        ["January"; "February"; "March"; "April"; "May"; "June"; "July";
         "August"; "September"; "October"; "November"; "December"]) /\
  ((forall my, NewMonthYearString s <> Ok my) ->
     MonthYear_Month s
     = Err (errorString ("unable to parse the MonthYear: " ++ s)%string)).
Proof.
  split.
  - intros Hv. unfold MonthYear_Month, NewMonthYear.
    rewrite (time_Parse_Format t Hv). cbn [t_month]. split; [reflexivity |].
    destruct Hv as [Hm _].
    assert (C : t_month t = 1 \/ t_month t = 2 \/ t_month t = 3
                \/ t_month t = 4 \/ t_month t = 5 \/ t_month t = 6
                \/ t_month t = 7 \/ t_month t = 8 \/ t_month t = 9
                \/ t_month t = 10 \/ t_month t = 11 \/ t_month t = 12)
      by lia.
    repeat (destruct C as [C | C]; [rewrite C; cbn; tauto |]).
    rewrite C; cbn; tauto.
  - intros Hrej. unfold MonthYear_Month.
    unfold NewMonthYearString in Hrej.
    destruct (time_Parse s) as [t' |]; [| reflexivity].
    exfalso. exact (Hrej _ eq_refl).
Qed.

Lemma Month_of_rendered_witness :
  (MonthYear_Month (NewMonthYear (mkTime 2023 10 0)) = Ok "October" /\
   In "October"
      ["January"; "February"; "March"; "April"; "May"; "June"; "July";
       "August"; "September"; "October"; "November"; "December"]) /\
  MonthYear_Month "2023-10"
  = Err (errorString "unable to parse the MonthYear: 2023-10").
Proof.
  split.
  - apply (proj1 (Month_of_rendered (mkTime 2023 10 0) "2023-10")).
    unfold valid_time. cbn. lia.
  - apply (proj2 (Month_of_rendered (mkTime 2023 10 0) "2023-10")).
    intros my. discriminate.
Defined.

Lemma NewMonthYearString_accepts_rendered_witness :
  NewMonthYearString "10-2023" = Ok "10-2023".
Proof.
  apply (proj2 (NewMonthYearString_accepts_rendered "10-2023" "10-2023")).
  split; [reflexivity |]. exists (mkTime 2023 10 0).
  split; [unfold valid_time; cbn; lia | reflexivity].
Defined.

(* ------------------------------------------------------------------ *)
(** ** MemberService: lookups, writes and what they keep *)

Lemma time_Parse_error (s : string) (e : error) :
  time_Parse s = Err e -> e = time_ParseError s.
Proof.
  unfold time_Parse.
  destruct s as [| m1 [| m2 [| sep [| y1 [| y2 [| y3 [| y4 [| ? ?]]]]]]]];
    try (intros [= <-]; reflexivity).
  destruct (is_digit m1 && is_digit m2 && Ascii.eqb sep "-"%char
            && is_digit y1 && is_digit y2 && is_digit y3 && is_digit y4);
    [| intros [= <-]; reflexivity].
  destruct ((1 <=? 10 * digit_val m1 + digit_val m2)
            && (10 * digit_val m1 + digit_val m2 <=? 12));
    [discriminate | intros [= <-]; reflexivity].
Qed.

(** A row converts, or fails with the parse error of its [month_year]. *)
Lemma genMemberToMember_cases (r : gen_Member) :
  (genMemberToMember r = Ok (member_of_row r) /\
   NewMonthYearString (g_MonthYear r) = Ok (g_MonthYear r)) \/
  (genMemberToMember r = Err (time_ParseError (g_MonthYear r)) /\
   forall my, NewMonthYearString (g_MonthYear r) <> Ok my).
Proof.
  unfold genMemberToMember.
  destruct (NewMonthYearString (g_MonthYear r)) as [my | e] eqn:E.
  - left. pose proof (NewMonthYearString_Ok_inv _ _ E) as [-> _].
    split; reflexivity.
  - right. unfold NewMonthYearString in E.
    destruct (time_Parse (g_MonthYear r)) eqn:P; [discriminate |].
    injection E as <-. rewrite (time_Parse_error _ _ P).
    split; [reflexivity | discriminate].
Qed.

Lemma FindMemberByID_eq (id : Z) (s : Store) :
  FindMemberByID id s =
  (match find (has_id id) (members s) with
   | Some r => genMemberToMember r
   | None => Err ErrNotFound
   end,
   journal_add [call_FindMemberByID id] s).
Proof.
  unfold FindMemberByID, bind, called, query, q_FindMemberByID, journal_add.
  cbn. destruct (find (has_id id) (members s)); reflexivity.
Qed.

Lemma find_none_iff (p : gen_Member -> bool) (t : Table) :
  find p t = None <-> forall r, In r t -> p r = false.
Proof.
  split; [apply find_none |].
  intros H. destruct (find p t) as [r |] eqn:F; [| reflexivity].
  apply find_some in F. destruct F as [Hin Hp].
  rewrite (H r Hin) in Hp. discriminate.
Qed.

(** X3.  [FindMember] and [FindMemberByID] return [ErrNotFound] exactly
    when no row has the key, respectively the id; neither changes a row. *)
Theorem find_not_found_iff (uid : string) (date : MonthYear) (id : Z)
  (s : Store) :
  (fst (FindMember uid date s) = Err ErrNotFound <->
   forall r, In r (members s) -> has_key uid date r = false) /\
  (fst (FindMemberByID id s) = Err ErrNotFound <->
   forall r, In r (members s) -> g_ID r <> id) /\
  members (snd (FindMember uid date s)) = members s /\
  members (snd (FindMemberByID id s)) = members s.
Proof.
  rewrite FindMember_eq, FindMemberByID_eq. cbn [fst snd journal_add members].
  repeat split.
  - intros H. apply find_none_iff.
    destruct (find (has_key uid date) (members s)) as [r |]; [| reflexivity].
    destruct (genMemberToMember_cases r) as [[E _] | [E _]];
      rewrite E in H; discriminate.
  - intros H. apply find_none_iff in H. rewrite H. reflexivity.
  - intros H r Hin E.
    destruct (find (has_id id) (members s)) as [r' |] eqn:F.
    + destruct (genMemberToMember_cases r') as [[G _] | [G _]];
        rewrite G in H; discriminate.
    + pose proof (find_none _ _ F r Hin) as N. unfold has_id in N.
      rewrite E, Z.eqb_refl in N. discriminate.
  - intros H. rewrite (find_other_id id (members s) H). reflexivity.
Qed.

Lemma find_app_last (p : gen_Member -> bool) (t : Table) (r : gen_Member) :
  find p t = None -> p r = true -> find p (t ++ [r]) = Some r.
Proof.
  intros F P. rewrite (find_app_none _ _ _ F). cbn. rewrite P. reflexivity.
Qed.



(** X5.  Whatever the first call does, a second [CreateMember] of the
    same member right after it fails with the UNIQUE-constraint error and
    leaves the table as the first call left it. *)
Theorem CreateMember_twice (now now' : GoTime) (m : Member) (s : Store) :
  SlackUID m <> "" ->
  let s1 := snd (CreateMember now m s) in
  fst (fst (CreateMember now' m s1))
  = Some (Errorf "CreateMember:" sqlite_ErrConstraintUnique) /\
  members (snd (CreateMember now' m s1)) = members s1.
Proof.
  intros Hu s1.
  assert (Hthere : existsb (has_key (SlackUID m) (Date m)) (members s1)
                   = true).
  { unfold s1. rewrite (CreateMember_eq now m s Hu).
    destruct (existsb (has_key (SlackUID m) (Date m)) (members s)) eqn:E;
      cbn [snd members journal_add]; [assumption |].
    rewrite existsb_app. cbn. unfold has_key at 2. cbn.
    rewrite !String.eqb_refl. cbn. apply orb_true_r. }
  rewrite (CreateMember_eq now' m s1 Hu). rewrite Hthere.
  split; reflexivity.
Qed.

Lemma CreateMember_twice_witness :
  fst (fst (CreateMember (mkTime 2023 10 8) (Member_literal "U9" "10-2023")
              (snd (CreateMember (mkTime 2023 10 7)
                      (Member_literal "U9" "10-2023") empty_store))))
  = Some (Errorf "CreateMember:" sqlite_ErrConstraintUnique) /\
  members (snd (CreateMember (mkTime 2023 10 8)
                  (Member_literal "U9" "10-2023")
                  (snd (CreateMember (mkTime 2023 10 7)
                          (Member_literal "U9" "10-2023") empty_store))))
  = members (snd (CreateMember (mkTime 2023 10 7)
                    (Member_literal "U9" "10-2023") empty_store)).
Proof.
  apply (CreateMember_twice (mkTime 2023 10 7) (mkTime 2023 10 8)
           (Member_literal "U9" "10-2023") empty_store).
  discriminate.
Defined.

(** X6.  [UpdateMember] on an id no row has returns [ErrNotFound] and
    changes no row; when it returns a member, [FindMemberByID] on the same
    id then returns that very member. *)
Theorem UpdateMember_then_find (now : GoTime) (id : Z) (upd : MemberUpdate)
  (s : Store) :
  ((forall r, In r (members s) -> g_ID r <> id) ->
     fst (UpdateMember now id upd s) = Err ErrNotFound /\
     members (snd (UpdateMember now id upd s)) = members s) /\
  (forall m, fst (UpdateMember now id upd s) = Ok m ->
     fst (FindMemberByID id (snd (UpdateMember now id upd s))) = Ok m).
Proof.
  rewrite UpdateMember_eq. split.
  - intros H. rewrite (find_other_id id (members s) H). split; reflexivity.
  - intros m. destruct (find (has_id id) (members s)) as [r |] eqn:F;
      [| discriminate].
    destruct (genMemberToMember r) as [m0 |] eqn:G; [| discriminate].
    cbv zeta. cbn [fst snd]. intros Hm.
    rewrite FindMemberByID_eq. cbn [fst members].
    rewrite find_map_stable by (intros; apply has_id_update_row).
    rewrite F. cbn [option_map]. unfold update_row.
    apply find_some in F. destruct F as [_ ->]. assumption.
Qed.

Lemma UpdateMember_then_find_witness :
  (fst (UpdateMember (mkTime 2023 10 6) 7 (mkMemberUpdate (Some 9) None)
          two_rows) = Err ErrNotFound /\
   members (snd (UpdateMember (mkTime 2023 10 6) 7
                   (mkMemberUpdate (Some 9) None) two_rows))
   = members two_rows) /\
  fst (FindMemberByID 1
         (snd (UpdateMember (mkTime 2023 10 6) 1
                 (mkMemberUpdate (Some 9) None) two_rows)))
  = Ok (mkMember 1 "10-2023" "U1" 9 2 (mkTime 2023 10 1) (mkTime 2023 10 6)).
Proof.
  split.
  - apply (proj1 (UpdateMember_then_find (mkTime 2023 10 6) 7
                    (mkMemberUpdate (Some 9) None) two_rows)).
    intros r [<- | [<- | []]]; discriminate.
  - apply (proj2 (UpdateMember_then_find (mkTime 2023 10 6) 1
                    (mkMemberUpdate (Some 9) None) two_rows)).
    reflexivity.
Defined.

(** X7.  [DeleteMember] returns [nil] whether or not a row has the id; the
    rows it leaves are exactly the rows of another id, in their order, and
    [FindMemberByID] on the id then returns [ErrNotFound]. *)
Theorem DeleteMember_removes (id : Z) (s : Store) :
  fst (DeleteMember id s) = None /\
  members (snd (DeleteMember id s))
  = filter (fun r => negb (g_ID r =? id)) (members s) /\
  (forall r, In r (members (snd (DeleteMember id s))) <->
             In r (members s) /\ g_ID r <> id) /\
  fst (FindMemberByID id (snd (DeleteMember id s))) = Err ErrNotFound.
Proof.
  unfold DeleteMember, bind, exec, q_DeleteMember. cbn [fst snd members ret].
  split; [reflexivity |]. split; [reflexivity |].
  assert (Hin : forall r,
             In r (filter (fun r0 => negb (has_id id r0)) (members s)) <->
             In r (members s) /\ g_ID r <> id).
  { intros r. rewrite filter_In. unfold has_id.
    destruct (Z.eqb_spec (g_ID r) id); cbn; intuition congruence. }
  split; [exact Hin |].
  rewrite FindMemberByID_eq. cbn [fst members].
  rewrite find_other_id; [reflexivity |].
  intros x Hx. apply Hin in Hx. tauto.
Qed.

(* ------------------------------------------------------------------ *)
(** ** The constraints of the schema, and what the handlers keep *)

Lemma existsb_false_find (p : gen_Member -> bool) (t : Table) :
  existsb p t = false -> find p t = None.
Proof.
  induction t as [| x t IH]; cbn; [reflexivity |].
  destruct (p x); [discriminate | assumption].
Qed.

Lemma CreateMember_cases (now : GoTime) (m : Member) (s : Store) :
  (fst (fst (CreateMember now m s)) <> None /\
   members (snd (CreateMember now m s)) = members s) \/
  (fst (fst (CreateMember now m s)) = None /\
   find (has_key (SlackUID m) (Date m)) (members s) = None /\
   snd (fst (CreateMember now m s))
   = mkMember (next_rowid (members s)) (Date m) (SlackUID m) 0 0 now now /\
   members (snd (CreateMember now m s))
   = members s ++ [mkRow (next_rowid (members s)) (Date m) (SlackUID m)
                         0 0 now now]).
Proof.
  destruct (String.eqb_spec (SlackUID m) "") as [E | N].
  - left. unfold CreateMember, bind, called, Validate. rewrite E. cbn.
    split; [discriminate | reflexivity].
  - rewrite (CreateMember_eq now m s N).
    destruct (existsb (has_key (SlackUID m) (Date m)) (members s)) eqn:X;
      cbn.
    + left. split; [discriminate | reflexivity].
    + right. apply existsb_false_find in X. repeat split. assumption.
Qed.

Lemma map_update_row_keys (l d : Z) (now : GoTime) (id : Z) (t : Table) :
  map row_key (map (update_row l d now id) t) = map row_key t.
Proof.
  rewrite map_map. apply map_ext. intros r. unfold update_row.
  destruct (has_id id r); reflexivity.
Qed.

Lemma map_update_row_identity (l d : Z) (now : GoTime) (id : Z) (t : Table) :
  map row_identity (map (update_row l d now id) t) = map row_identity t.
Proof.
  rewrite map_map. apply map_ext. intros r. unfold update_row.
  destruct (has_id id r); reflexivity.
Qed.

Lemma NoDup_map_filter {A : Type} (f : gen_Member -> A)
  (p : gen_Member -> bool) (t : Table) :
  NoDup (map f t) -> NoDup (map f (filter p t)).
Proof.
  induction t as [| x t IH]; cbn; intros H; [constructor |].
  inversion H as [| ? ? Hnot Hnd]; subst.
  destruct (p x); cbn; [| auto].
  constructor; [| auto].
  intros Hin. apply Hnot. apply in_map_iff in Hin.
  destruct Hin as (y & Ey & Hy). apply filter_In in Hy.
  apply in_map_iff. exists y. tauto.
Qed.

Lemma table_ok_insert (t : Table) (r : gen_Member) :
  table_ok t ->
  (forall x, In x t -> g_ID x < g_ID r) ->
  find (has_key (g_SlackUid r) (g_MonthYear r)) t = None ->
  table_ok (t ++ [r]).
Proof.
  intros [Hid Hkey] Hfresh Habs. split.
  - apply NoDup_ids_append; [assumption |].
    intros x Hx. specialize (Hfresh x Hx). lia.
  - rewrite map_app. cbn.
    apply NoDup_app; [assumption | repeat constructor; intros [] |].
    intros k Hk [<- | []].
    apply in_map_iff in Hk. destruct Hk as (x & Ex & Hx).
    pose proof (find_none _ _ Habs x Hx) as N.
    unfold row_key in Ex. injection Ex as E1 E2.
    unfold has_key in N. rewrite E1, E2, !String.eqb_refl in N.
    discriminate.
Qed.

Lemma table_step_ok (t t' : Table) :
  table_step t t' -> table_ok t -> table_ok t'.
Proof.
  induction 1 as [t | t l d now id | t r Hfresh Habs | t1 t2 t3 _ IH1 _ IH2];
    intros Hok; auto.
  - destruct Hok as [Hid Hkey]. split.
    + rewrite map_update_row_ids. assumption.
    + rewrite map_update_row_keys. assumption.
  - apply table_ok_insert; assumption.
Qed.

Lemma table_step_identity (t t' : Table) :
  table_step t t' ->
  exists extra, map row_identity t' = map row_identity t ++ extra.
Proof.
  induction 1 as [t | t l d now id | t r _ _
                 | t1 t2 t3 _ [e1 IH1] _ [e2 IH2]].
  - exists []. rewrite app_nil_r. reflexivity.
  - exists []. rewrite app_nil_r. apply map_update_row_identity.
  - exists [row_identity r]. rewrite map_app. reflexivity.
  - exists (e1 ++ e2). rewrite IH2, IH1, app_assoc. reflexivity.
Qed.

Lemma UpdateMember_step (now : GoTime) (id l d : Z) (s : Store) :
  table_step (members s)
    (members (snd (UpdateMember now id
                     (mkMemberUpdate (Some l) (Some d)) s))).
Proof.
  destruct (UpdateMember_both_members now id l d s) as [-> | ->];
    constructor.
Qed.

Lemma HandleReactionEvent_found_step (clk : Clock) (uid : string)
  (update : Member -> Member) (monthYear : MonthYear)
  (found : result Member) (s : Store) :
  table_step (members s)
    (members (snd (HandleReactionEvent_found clk uid update monthYear
                     found s))).
Proof.
  assert (Hfinish : forall m s0,
    table_step (members s0)
      (members (snd
        ((r <- UpdateMember (at_update clk) (ID (update m))
                (mkMemberUpdate (Some (ReceivedLikes (update m)))
                                (Some (ReceivedDislikes (update m)))) ;;
          match r with
          | Err err => ret (Some err)
          | Ok _ => ret None
          end) s0)))).
  { intros m s0. unfold bind.
    pose proof (UpdateMember_step (at_update clk) (ID (update m))
                  (ReceivedLikes (update m)) (ReceivedDislikes (update m))
                  s0) as H.
    destruct (UpdateMember (at_update clk) (ID (update m)) _ s0)
      as [[m1 | e1] s1]; exact H. }
  unfold HandleReactionEvent_found.
  destruct found as [mem | err]; [apply Hfinish |].
  destruct (errors_Is err ErrNotFound); [| constructor].
  unfold bind at 1.
  pose proof (CreateMember_cases (at_create clk)
                (Member_literal uid monthYear) s) as Hc.
  destruct (CreateMember (at_create clk) (Member_literal uid monthYear) s)
    as [[cerr m] s1]. cbn [fst snd] in Hc.
  destruct Hc as [[Hne E] | (-> & Habs & Em & E)].
  - destruct cerr; [| contradiction]. cbn. rewrite E. constructor.
  - apply (step_trans _ (members s1)); [| apply Hfinish].
    rewrite E. apply step_insert; [| exact Habs].
    intros x Hx. cbn. apply next_rowid_fresh. assumption.
Qed.

Lemma dispatch_step (clk : Clock) (ev : Event) (s : Store) :
  table_step (members s) (members (snd (dispatch clk ev s))).
Proof.
  assert (H : forall uid update,
             table_step (members s)
               (members (snd (HandleReactionEvent clk uid update s)))).
  { intros uid update. unfold HandleReactionEvent.
    destruct ((uid =? "USLACKBOT")%string || (uid =? "")%string);
      [constructor |].
    unfold bind. rewrite FindMember_eq.
    apply (HandleReactionEvent_found_step clk uid update _ _
             (journal_add _ s)). }
  destruct ev as [e | e]; cbn [dispatch];
    unfold HandleReactionAddedEvent, HandleReactionRemovedEvent;
    destruct (Reaction e =? ThumbsUp)%string;
    try destruct (Reaction e =? ThumbsDown)%string;
    try apply H; constructor.
Qed.

Lemma deliver_cons (clk : Clock) (ev : Event) (evs : list (Clock * Event))
  (s : Store) :
  deliver ((clk, ev) :: evs) s =
  (fst (dispatch clk ev s) :: fst (deliver evs (snd (dispatch clk ev s))),
   snd (deliver evs (snd (dispatch clk ev s)))).
Proof.
  cbn [deliver]. unfold bind, ret.
  destruct (dispatch clk ev s) as [r s1]. cbn [fst snd].
  destruct (deliver evs s1) as [rs s2]. reflexivity.
Qed.

Lemma deliver_step (evs : list (Clock * Event)) (s : Store) :
  table_step (members s) (members (snd (deliver evs s))).
Proof.
  revert s. induction evs as [| [clk ev] evs IH]; intros s.
  - constructor.
  - rewrite deliver_cons. cbn [snd].
    apply (step_trans _ (members (snd (dispatch clk ev s))));
      [apply dispatch_step | apply IH].
Qed.

(** X8.  The constraints of the schema hold of the table after any
    sequence of deliveries, and after any single [CreateMember],
    [UpdateMember] or [DeleteMember], if they held before: ids stay
    distinct and no two rows share a (SlackUID, period). *)
Theorem constraints_kept (s : Store) :
  table_ok (members s) ->
  (forall evs, table_ok (members (snd (deliver evs s)))) /\
  (forall now m, table_ok (members (snd (CreateMember now m s)))) /\
  (forall now id upd, table_ok (members (snd (UpdateMember now id upd s)))) /\
  (forall id, table_ok (members (snd (DeleteMember id s)))).
Proof.
  intros Hok. split; [| split; [| split]].
  - intros evs.
    apply (table_step_ok (members s)); [apply deliver_step | assumption].
  - intros now m.
    destruct (CreateMember_cases now m s) as [[_ ->] | (_ & Habs & _ & ->)];
      [assumption |].
    apply table_ok_insert; try assumption.
    intros x Hx. cbn. apply next_rowid_fresh. assumption.
  - intros now id upd. rewrite UpdateMember_eq.
    destruct (find (has_id id) (members s)) as [r |]; [| assumption].
    destruct (genMemberToMember r); [| assumption].
    cbn. destruct Hok as [Hid Hkey]. split.
    + rewrite map_update_row_ids. assumption.
    + rewrite map_update_row_keys. assumption.
  - intros id. destruct Hok as [Hid Hkey].
    unfold DeleteMember, bind, exec, q_DeleteMember. cbn.
    split; apply NoDup_map_filter; assumption.
Qed.

Lemma constraints_kept_witness :
  table_ok (members (snd (deliver
    [(october, ReactionAdded (mkReaction "+1" "U2"));
     (october, ReactionRemoved (mkReaction "-1" "U1"))] one_member))).
Proof.
  apply (proj1 (constraints_kept one_member
                  ltac:(split; cbn; repeat constructor; cbn; tauto))).
Defined.

(** X9.  No sequence of deliveries deletes a row or changes the id,
    SlackUID, period or created_at of one: the rows there before are the
    first rows after, in the same order, with these four fields as they
    were. *)
Theorem deliveries_never_delete (evs : list (Clock * Event)) (s : Store) :
  exists extra,
    map row_identity (members (snd (deliver evs s)))
    = map row_identity (members s) ++ extra.
Proof.
  apply table_step_identity, deliver_step.
Qed.

(* ------------------------------------------------------------------ *)
(** ** Reconciliation: counting, framing, first sight *)

Section Adds.

Variable uid : string.
Variable my : MonthYear.

Hypothesis human : uid <> "" /\ uid <> "USLACKBOT".

Lemma adds_count_from (rs : list (Clock * string)) (s : Store) (l d : Z) :
  all_in_period my rs ->
  NoDup (map g_ID (members s)) ->
  counters_or_zero uid my (members s) = (l, d) ->
  min_int <= l -> min_int <= d ->
  l + count_reaction ThumbsUp rs <= max_int ->
  d + count_reaction ThumbsDown rs <= max_int ->
  Forall (eq None) (fst (deliver (added_on uid rs) s)) /\
  counters_or_zero uid my (members (snd (deliver (added_on uid rs) s)))
  = (l + count_reaction ThumbsUp rs, d + count_reaction ThumbsDown rs).
Proof.
  revert s l d.
  induction rs as [| [clk r] rs IH]; intros s l d Hp Hnd Hz Hl Hd Bl Bd.
  - cbn. unfold count_reaction. cbn. rewrite !Z.add_0_r.
    split; [constructor | assumption].
  - inversion Hp as [| ? ? Hc Hp']; subst. destruct Hc as [Hv Hm].
    cbn [fst snd] in Hv, Hm.
    cbn [added_on map fst snd]. rewrite deliver_cons. cbn [fst snd].
    fold (added_on uid rs).
    assert (Cu : 0 <= count_reaction ThumbsUp rs)
      by (unfold count_reaction; lia).
    assert (Cd : 0 <= count_reaction ThumbsDown rs)
      by (unfold count_reaction; lia).
    unfold count_reaction in Bl, Bd |- *. cbn [filter snd] in Bl, Bd |- *.
    fold (count_reaction ThumbsUp rs) in Bl |- *.
    fold (count_reaction ThumbsDown rs) in Bd |- *.
    cbn [dispatch]. unfold HandleReactionAddedEvent. cbn [Reaction ItemUser].
    destruct (String.eqb_spec r ThumbsUp) as [-> | Nu].
    + cbn [String.eqb Ascii.eqb Bool.eqb ThumbsUp ThumbsDown List.length]
        in Bl, Bd |- *.
      rewrite Nat2Z.inj_succ in Bl |- *.
      fold (count_reaction ThumbsUp rs) in Bl |- *.
      fold (count_reaction ThumbsDown rs) in Bd |- *.
      destruct (HandleReactionEvent_counters clk uid like_added
                  (fun x => int_add x 1) (fun x => x) s Hv Hnd human)
        as (A1 & A2 & A3); [intros m; apply closures_spec |].
      rewrite Hm, Hz in A3. cbn [fst snd] in A3.
      rewrite int_add_1 in A3
        by (unfold in_int, min_int, max_int in *; lia).
      destruct (IH (snd (HandleReactionEvent clk uid like_added s))
                  (l + 1) d Hp' A2) as [R C];
        try lia; [unfold counters_or_zero; rewrite A3; reflexivity |].
      rewrite A1. split; [constructor; [reflexivity | assumption] |].
      rewrite C. f_equal. lia.
    + destruct (String.eqb_spec r ThumbsDown) as [-> | Nd].
      * cbn [String.eqb Ascii.eqb Bool.eqb ThumbsUp ThumbsDown List.length]
          in Bl, Bd |- *.
        rewrite Nat2Z.inj_succ in Bd |- *.
        fold (count_reaction ThumbsUp rs) in Bl |- *.
        fold (count_reaction ThumbsDown rs) in Bd |- *.
        destruct (HandleReactionEvent_counters clk uid dislike_added
                    (fun x => x) (fun x => int_add x 1) s Hv Hnd human)
          as (A1 & A2 & A3); [intros m; apply closures_spec |].
        rewrite Hm, Hz in A3. cbn [fst snd] in A3.
        rewrite int_add_1 in A3
          by (unfold in_int, min_int, max_int in *; lia).
        destruct (IH (snd (HandleReactionEvent clk uid dislike_added s))
                    l (d + 1) Hp' A2) as [R C];
          try lia; [unfold counters_or_zero; rewrite A3; reflexivity |].
        rewrite A1. split; [constructor; [reflexivity | assumption] |].
        rewrite C. f_equal. lia.
      * apply String.eqb_neq in Nu, Nd.
        unfold ThumbsUp, ThumbsDown in *.
        rewrite ?Nu, ?Nd in *.
        fold (count_reaction "+1" rs) in Bl |- *.
        fold (count_reaction "-1" rs) in Bd |- *.
        cbn [ret fst snd].
        destruct (IH s l d Hp' Hnd Hz Hl Hd Bl Bd) as [R C].
        split; [constructor; [reflexivity | assumption] | assumption].
Qed.

End Adds.

(** X10.  Added reactions on one human member, delivered in one period to
    a table with distinct ids: every delivery returns [nil], and the
    member's likes grow by the number of [+1], the dislikes by the number
    of [-1], other reactions counting for nothing; a member never seen
    starts from zero.  The counters must have room for the additions. *)
Theorem adds_are_counted (uid : string) (my : MonthYear)
  (rs : list (Clock * string)) (s : Store) :
  uid <> "" /\ uid <> "USLACKBOT" ->
  all_in_period my rs ->
  NoDup (map g_ID (members s)) ->
  min_int <= fst (counters_or_zero uid my (members s)) ->
  min_int <= snd (counters_or_zero uid my (members s)) ->
  fst (counters_or_zero uid my (members s)) + count_reaction ThumbsUp rs
  <= max_int ->
  snd (counters_or_zero uid my (members s)) + count_reaction ThumbsDown rs
  <= max_int ->
  Forall (eq None) (fst (deliver (added_on uid rs) s)) /\
  counters_or_zero uid my (members (snd (deliver (added_on uid rs) s)))
  = (fst (counters_or_zero uid my (members s)) + count_reaction ThumbsUp rs,
     snd (counters_or_zero uid my (members s))
     + count_reaction ThumbsDown rs).
Proof.
  intros Hh Hp Hnd Hl Hd Bl Bd.
  apply adds_count_from; try assumption.
  destruct (counters_or_zero uid my (members s)); reflexivity.
Qed.

Lemma adds_are_counted_witness :
  counters_or_zero "U7" "10-2023"
    (members (snd (deliver
       (added_on "U7" [(october, "+1"); (later_october, "tada");
                       (later_october, "+1"); (october, "-1")])
       one_member)))
  = (0 + 2, 0 + 1).
Proof.
  apply (adds_are_counted "U7" "10-2023"
           [(october, "+1"); (later_october, "tada");
            (later_october, "+1"); (october, "-1")] one_member).
  - split; discriminate.
  - repeat constructor; cbn; lia.
  - cbn. repeat constructor; cbn; tauto.
  - unfold min_int. cbn. lia.
  - unfold min_int. cbn. lia.
  - unfold max_int. cbn. lia.
  - unfold max_int. cbn. lia.
Defined.

(** X11.  One reconciliation touches one member: every stored row of
    another (SlackUID, period) than the target's is in the table after it,
    unchanged in all its fields. *)
Theorem reconciliation_frame (clk : Clock) (uid : string)
  (update : Member -> Member) (s : Store) (r : gen_Member) :
  valid_time (at_handler clk) ->
  NoDup (map g_ID (members s)) ->
  uid <> "" /\ uid <> "USLACKBOT" ->
  (forall m, ID (update m) = ID m) ->
  In r (members s) ->
  row_key r <> (uid, NewMonthYear (at_handler clk)) ->
  In r (members (snd (HandleReactionEvent clk uid update s))).
Proof.
  intros Hv Hnd Hu Hid Hin Hkey.
  destruct (find (has_key uid (NewMonthYear (at_handler clk))) (members s))
    as [r0 |] eqn:F.
  - destruct (HandleReactionEvent_existing clk uid update s Hv Hnd Hu Hid
                r0 F) as [_ ->].
    apply in_map_iff. exists r. split; [| assumption].
    unfold update_row, has_id.
    destruct (Z.eqb_spec (g_ID r) (g_ID r0)) as [E | _]; [| reflexivity].
    exfalso. apply find_some in F. destruct F as [Hin0 K].
    assert (r = r0) by (apply (NoDup_id_unique (members s)); assumption).
    subst r0. apply Hkey. unfold has_key in K.
    apply andb_true_iff in K. destruct K as [K1 K2].
    apply String.eqb_eq in K1. apply String.eqb_eq in K2.
    unfold row_key. rewrite K1, K2. reflexivity.
  - destruct (HandleReactionEvent_absent clk uid update s Hv Hu Hid F)
      as [_ ->].
    apply in_or_app. left. assumption.
Qed.

Lemma reconciliation_frame_witness :
  In (mkRow 2 "10-2023" "U2" 7 0 (mkTime 2023 10 1) (mkTime 2023 10 1))
     (members (snd (HandleReactionEvent october "U1" like_added two_rows))).
Proof.
  apply (reconciliation_frame october "U1" like_added two_rows).
  - unfold valid_time. cbn. lia.
  - cbn. repeat constructor; cbn; intuition discriminate.
  - split; discriminate.
  - reflexivity.
  - cbn. tauto.
  - discriminate.
Defined.

(** X12.  A removed [+1] or [-1] for a human member never seen in the
    period is not dropped: the handler returns [nil] and appends the
    member's row, with both counters at 0. *)
Theorem removed_creates_zero_row (clk : Clock) (e : ReactionEvent)
  (s : Store) :
  valid_time (at_handler clk) ->
  ItemUser e <> "" /\ ItemUser e <> "USLACKBOT" ->
  Reaction e = ThumbsUp \/ Reaction e = ThumbsDown ->
  (forall r, In r (members s) ->
     has_key (ItemUser e) (NewMonthYear (at_handler clk)) r = false) ->
  fst (HandleReactionRemovedEvent clk e s) = None /\
  members (snd (HandleReactionRemovedEvent clk e s))
  = members s ++
    [mkRow (next_rowid (members s)) (NewMonthYear (at_handler clk))
           (ItemUser e) 0 0 (at_create clk) (at_update clk)].
Proof.
  intros Hv Hu Hr Habs. apply find_none_iff in Habs.
  unfold HandleReactionRemovedEvent.
  destruct Hr as [R | R]; rewrite R;
    cbn [String.eqb Ascii.eqb Bool.eqb ThumbsUp ThumbsDown].
  - apply (HandleReactionEvent_absent clk (ItemUser e) like_removed s Hv Hu
             (fun m => eq_refl) Habs).
  - apply (HandleReactionEvent_absent clk (ItemUser e) dislike_removed s Hv
             Hu (fun m => eq_refl) Habs).
Qed.

Lemma removed_creates_zero_row_witness :
  fst (HandleReactionRemovedEvent october (mkReaction "-1" "U5") one_member)
  = None /\
  members (snd (HandleReactionRemovedEvent october (mkReaction "-1" "U5")
                  one_member))
  = members one_member ++
    [mkRow 2 "10-2023" "U5" 0 0 (at_create october) (at_update october)].
Proof.
  apply (removed_creates_zero_row october (mkReaction "-1" "U5") one_member).
  - unfold valid_time. cbn. lia.
  - split; discriminate.
  - right. reflexivity.
  - intros r [<- | []]. reflexivity.
Defined.

(** X13.  [CreateMember] does not check the period.  A member whose
    [Date] is not of the form MM-YYYY is stored, and can then not be read:
    [FindMemberByID], [FindMember] and [UpdateMember] all return the parse
    error of its period, and [UpdateMember] changes no row. *)
Theorem unparsable_period_is_write_only (now now' : GoTime) (m : Member)
  (upd : MemberUpdate) (s : Store) :
  SlackUID m <> "" ->
  (forall my, NewMonthYearString (Date m) <> Ok my) ->
  (forall r, In r (members s) -> has_key (SlackUID m) (Date m) r = false) ->
  let m' := snd (fst (CreateMember now m s)) in
  let s' := snd (CreateMember now m s) in
  fst (fst (CreateMember now m s)) = None /\
  In (mkRow (ID m') (Date m) (SlackUID m) 0 0 now now) (members s') /\
  fst (FindMemberByID (ID m') s') = Err (time_ParseError (Date m)) /\
  fst (FindMember (SlackUID m) (Date m) s') = Err (time_ParseError (Date m)) /\
  fst (UpdateMember now' (ID m') upd s') = Err (time_ParseError (Date m)) /\
  members (snd (UpdateMember now' (ID m') upd s')) = members s'.
Proof.
  intros Hu Hbad Habs. apply find_none_iff in Habs.
  rewrite (CreateMember_eq now m s Hu). rewrite (existsb_find _ _ Habs).
  cbv zeta. cbn [fst snd ID].
  assert (Hfresh : forall x, In x (members s) ->
                             g_ID x <> next_rowid (members s)).
  { intros x Hx. pose proof (next_rowid_fresh _ _ Hx). lia. }
  assert (G : genMemberToMember
                (mkRow (next_rowid (members s)) (Date m) (SlackUID m) 0 0
                       now now)
              = Err (time_ParseError (Date m))).
  { destruct (genMemberToMember_cases
                (mkRow (next_rowid (members s)) (Date m) (SlackUID m) 0 0
                       now now)) as [[_ E] | [E _]]; [| exact E].
    cbn in E. exfalso. exact (Hbad _ E). }
  assert (Fid : find (has_id (next_rowid (members s)))
                  (members s ++ [mkRow (next_rowid (members s)) (Date m)
                                       (SlackUID m) 0 0 now now])
                = Some (mkRow (next_rowid (members s)) (Date m)
                              (SlackUID m) 0 0 now now)).
  { apply find_app_last; [apply find_other_id; assumption |].
    unfold has_id. cbn. apply Z.eqb_refl. }
  split; [reflexivity |].
  split; [apply in_or_app; right; left; reflexivity |].
  rewrite FindMemberByID_eq, FindMember_eq, UpdateMember_eq.
  cbn [fst snd members journal_add].
  rewrite Fid, G.
  rewrite find_app_last;
    [| assumption | unfold has_key; cbn; rewrite !String.eqb_refl; reflexivity].
  rewrite G. repeat split.
Qed.

Lemma unparsable_period_is_write_only_witness :
  fst (fst (CreateMember (mkTime 2023 10 7) (Member_literal "U2ZN1SE2N" "2006-05")
              empty_store)) = None /\
  fst (UpdateMember (mkTime 2023 10 8) 1 (mkMemberUpdate (Some 5) (Some 23))
         (snd (CreateMember (mkTime 2023 10 7)
                 (Member_literal "U2ZN1SE2N" "2006-05") empty_store)))
  = Err (time_ParseError "2006-05").
Proof.
  pose proof (unparsable_period_is_write_only (mkTime 2023 10 7)
                (mkTime 2023 10 8) (Member_literal "U2ZN1SE2N" "2006-05")
                (mkMemberUpdate (Some 5) (Some 23)) empty_store) as H.
  cbv zeta in H.
  destruct H as (H1 & _ & _ & _ & H5 & _).
  - discriminate.
  - intros my. discriminate.
  - intros r [].
  - split; [exact H1 | exact H5].
Defined.

(* ------------------------------------------------------------------ *)
(** ** The monthly update *)

Lemma FindLeaderboard_eq (date : MonthYear) (s : Store) :
  FindLeaderboard date s =
  (match q_MostLikesReceived date (members s) with
   | Err err => Err err
   | Ok a =>
       match genMemberToMember a with
       | Err err => Err err
       | Ok ma =>
           match q_MostDislikesReceived date (members s) with
           | Err err => Err err
           | Ok b =>
               match genMemberToMember b with
               | Err err => Err err
               | Ok mb => Ok (mkLeaderboard date ma mb)
               end
           end
       end
   end,
   journal_add [call_FindLeaderboard date] s).
Proof.
  unfold FindLeaderboard, bind, called, query, journal_add, ret.
  cbn [members journal fst snd].
  destruct (q_MostLikesReceived date (members s)) as [a |]; [| reflexivity].
  destruct (genMemberToMember a) as [ma |]; [| reflexivity].
  cbn [members].
  destruct (q_MostDislikesReceived date (members s)) as [b |];
    [| reflexivity].
  destruct (genMemberToMember b); reflexivity.
Qed.

Lemma MonthYear_Month_rendered (t : GoTime) :
  valid_time t ->
  MonthYear_Month (NewMonthYear t) = Ok (Month_String (t_month t)).
Proof.
  intros Hv. unfold MonthYear_Month, NewMonthYear.
  rewrite (time_Parse_Format t Hv). reflexivity.
Qed.

Lemma HandleMonthlyUpdate_readonly (PostForm : url_Values)
  (post : option error) (s : Store) :
  members (snd (HandleMonthlyUpdate PostForm post s)) = members s.
Proof.
  unfold HandleMonthlyUpdate.
  destruct (Values_Get PostForm "channel" =? "")%string; [reflexivity |].
  destruct (Values_Get PostForm "date" =? "")%string; [reflexivity |].
  destruct (NewMonthYearString (Values_Get PostForm "date")) as [date |];
    [| reflexivity].
  unfold bind. rewrite FindLeaderboard_eq.
  destruct (match q_MostLikesReceived date (members s) with
            | Ok a => _
            | Err err => Err err
            end) as [lb |]; [| reflexivity].
  destruct (MonthYear_Month date); [| reflexivity].
  destruct post; reflexivity.
Qed.

(** X14.  A monthly update that fails hands nothing to Slack.  Without a
    channel, without a date, or with a date [NewMonthYearString] rejects,
    the handler returns an error before any service call; on a period
    without members it returns the [sql.ErrNoRows] of [FindLeaderboard].
    In no case, these or others, does it change a row. *)
Theorem monthly_update_failures (PostForm : url_Values)
  (post : option error) (s : Store) :
  ((Values_Get PostForm "channel" = "" \/
    Values_Get PostForm "date" = "" \/
    (forall my, NewMonthYearString (Values_Get PostForm "date") <> Ok my)) ->
   exists err, HandleMonthlyUpdate PostForm post s = ((Some err, None), s)) /\
  (Values_Get PostForm "channel" <> "" ->
   (forall date,
      NewMonthYearString (Values_Get PostForm "date") = Ok date ->
      (forall r, In r (members s) -> g_MonthYear r <> date) ->
      fst (HandleMonthlyUpdate PostForm post s)
      = (Some sql_ErrNoRows, None))) /\
  members (snd (HandleMonthlyUpdate PostForm post s)) = members s.
Proof.
  split; [| split; [| apply HandleMonthlyUpdate_readonly]].
  - unfold HandleMonthlyUpdate.
    destruct (String.eqb_spec (Values_Get PostForm "channel") "") as [Ec | Nc].
    { intros _. eexists. reflexivity. }
    destruct (String.eqb_spec (Values_Get PostForm "date") "") as [Ed | Nd].
    { intros _. eexists. reflexivity. }
    intros [Hc | [Hd | Hrej]]; [contradiction | contradiction |].
    destruct (NewMonthYearString (Values_Get PostForm "date")) as [my | e];
      [exfalso; exact (Hrej _ eq_refl) |].
    eexists. reflexivity.
  - intros Nc date Hdate Hempty. unfold HandleMonthlyUpdate.
    destruct (String.eqb_spec (Values_Get PostForm "channel") "");
      [contradiction |].
    destruct (String.eqb_spec (Values_Get PostForm "date") "") as [Ed | _].
    { rewrite Ed in Hdate. discriminate. }
    rewrite Hdate. unfold bind. rewrite FindLeaderboard_eq.
    unfold q_MostLikesReceived. rewrite limit_one_none; [reflexivity |].
    destruct (filter (in_month date) (members s)) as [| x l] eqn:F;
      [reflexivity |].
    exfalso.
    assert (Hx : In x (filter (in_month date) (members s)))
      by (rewrite F; left; reflexivity).
    apply filter_In in Hx. destruct Hx as [Hin Hm].
    unfold in_month in Hm. apply String.eqb_eq in Hm.
    exact (Hempty x Hin Hm).
Qed.

Lemma monthly_update_failures_witness :
  (exists err,
     HandleMonthlyUpdate (update_form "C024BE91L" "2023-10") None tie_store
     = ((Some err, None), tie_store)) /\
  fst (HandleMonthlyUpdate (update_form "C024BE91L" "01-1999") None tie_store)
  = (Some sql_ErrNoRows, None).
Proof.
  split.
  - apply (proj1 (monthly_update_failures
                    (update_form "C024BE91L" "2023-10") None tie_store)).
    right. right. intros my. discriminate.
  - apply (proj1 (proj2 (monthly_update_failures
                           (update_form "C024BE91L" "01-1999") None
                           tie_store))
             ltac:(discriminate) "01-1999" eq_refl).
    intros r [<- | [<- | [<- | []]]]; discriminate.
Defined.

(** X15.  A monthly update for a channel and a rendered month that has a
    member hands Slack, for that channel, the summary of a leaderboard
    whose two members hold the maximum likes, respectively dislikes, of
    the month, under the English name of the month; it returns what Slack
    answers, wrapped if it is an error. *)
Theorem monthly_update_posts_leaders (PostForm : url_Values)
  (post : option error) (s : Store) (t0 : GoTime) (r0 : gen_Member) :
  Values_Get PostForm "channel" <> "" ->
  Values_Get PostForm "date" = NewMonthYear t0 ->
  valid_time t0 ->
  In r0 (members s) -> g_MonthYear r0 = NewMonthYear t0 ->
  exists a b,
    In a (members s) /\ In b (members s) /\
    g_MonthYear a = NewMonthYear t0 /\ g_MonthYear b = NewMonthYear t0 /\
    (forall x, In x (members s) -> g_MonthYear x = NewMonthYear t0 ->
       g_ReceivedLikes x <= g_ReceivedLikes a /\
       g_ReceivedDislikes x <= g_ReceivedDislikes b) /\
    fst (HandleMonthlyUpdate PostForm post s)
    = (match post with
       | Some err => Some (Errorf "WeeklyUpdate PostMessage:" err)
       | None => None
       end,
       Some (Values_Get PostForm "channel",
             monthly_blocks (Month_String (t_month t0))
               (mkLeaderboard (NewMonthYear t0) (member_of_row a)
                              (member_of_row b)))).
Proof.
  intros Nc Ed Hv Hin Hm.
  destruct (limit_one_some g_ReceivedLikes _ _ _ Hin Hm) as [a Ha].
  destruct (limit_one_some g_ReceivedDislikes _ _ _ Hin Hm) as [b Hb].
  destruct (limit_one_maximum _ _ _ _ Ha) as (Ia & Ma & La).
  destruct (limit_one_maximum _ _ _ _ Hb) as (Ib & Mb & Lb).
  exists a, b. repeat split; auto.
  unfold HandleMonthlyUpdate.
  destruct (String.eqb_spec (Values_Get PostForm "channel") "");
    [contradiction |].
  rewrite Ed.
  assert (Nd : NewMonthYear t0 <> "") by (unfold NewMonthYear, time_Format;
                                          discriminate).
  destruct (String.eqb_spec (NewMonthYear t0) ""); [contradiction |].
  rewrite (NewMonthYearString_NewMonthYear t0 Hv).
  unfold bind. rewrite FindLeaderboard_eq.
  unfold q_MostLikesReceived, q_MostDislikesReceived. rewrite Ha, Hb.
  rewrite (genMemberToMember_valid t0 a Hv Ma).
  rewrite (genMemberToMember_valid t0 b Hv Mb).
  rewrite (MonthYear_Month_rendered t0 Hv).
  destruct post; reflexivity.
Qed.

Lemma monthly_update_posts_leaders_witness :
  exists a b,
    In a (members tie_store) /\ In b (members tie_store) /\
    g_MonthYear a = NewMonthYear (mkTime 2023 10 0) /\
    g_MonthYear b = NewMonthYear (mkTime 2023 10 0) /\
    (forall x, In x (members tie_store) ->
       g_MonthYear x = NewMonthYear (mkTime 2023 10 0) ->
       g_ReceivedLikes x <= g_ReceivedLikes a /\
       g_ReceivedDislikes x <= g_ReceivedDislikes b) /\
    fst (HandleMonthlyUpdate (update_form "C024BE91L" "10-2023") None
           tie_store)
    = (None,
       Some (Values_Get (update_form "C024BE91L" "10-2023") "channel",
             monthly_blocks (Month_String 10)
               (mkLeaderboard (NewMonthYear (mkTime 2023 10 0))
                              (member_of_row a) (member_of_row b)))).
Proof.
  apply (monthly_update_posts_leaders (update_form "C024BE91L" "10-2023")
           None tie_store (mkTime 2023 10 0) row_A).
  - discriminate.
  - reflexivity.
  - unfold valid_time. cbn. lia.
  - cbn. tauto.
  - reflexivity.
Defined.


(* ------------------------------------------------------------------ *)
(** ** The service calls of one reconciliation *)

(** X17.  One reconciliation of a human target, on a table with distinct
    ids, makes these service calls and no other, in this order: one
    [FindMember]; for a member never seen in the period, one
    [CreateMember] of the zero member; then one [UpdateMember] naming both
    counters, inside which [FindMemberByID] runs once.  It never looks a
    member up twice by key and never creates twice. *)
Theorem reconciliation_calls (clk : Clock) (uid : string)
  (update : Member -> Member) (s : Store) :
  valid_time (at_handler clk) ->
  NoDup (map g_ID (members s)) ->
  uid <> "" /\ uid <> "USLACKBOT" ->
  (forall m, ID (update m) = ID m) ->
  let my := NewMonthYear (at_handler clk) in
  journal (snd (HandleReactionEvent clk uid update s)) =
  journal s ++
  match find (has_key uid my) (members s) with
  | Some r =>
      let m' := update (member_of_row r) in
      [call_FindMember uid my;
       call_UpdateMember (g_ID r)
         (mkMemberUpdate (Some (ReceivedLikes m'))
                         (Some (ReceivedDislikes m')));
       call_FindMemberByID (g_ID r)]
  | None =>
      let id := next_rowid (members s) in
      let m' := update (mkMember id my uid 0 0 (at_create clk)
                                 (at_create clk)) in
      [call_FindMember uid my;
       call_CreateMember (Some (Member_literal uid my));
       call_UpdateMember id
         (mkMemberUpdate (Some (ReceivedLikes m'))
                         (Some (ReceivedDislikes m')));
       call_FindMemberByID id]
  end.
Proof.
  intros Hv Hnd [Hne Hbot] Hid my.
  unfold HandleReactionEvent.
  destruct (String.eqb_spec uid "USLACKBOT"); [contradiction |].
  destruct (String.eqb_spec uid ""); [contradiction |].
  cbn [orb]. unfold bind. rewrite FindMember_eq. fold my.
  destruct (find (has_key uid my) (members s)) as [r |] eqn:F.
  - pose proof (find_some _ _ F) as [Hin Hkey].
    unfold has_key in Hkey. apply andb_true_iff in Hkey.
    destruct Hkey as [_ Hmy]. apply String.eqb_eq in Hmy.
    assert (G : genMemberToMember r = Ok (member_of_row r))
      by (apply (genMemberToMember_valid (at_handler clk)); assumption).
    rewrite G. unfold HandleReactionEvent_found, bind.
    rewrite UpdateMember_eq.
    assert (Eid : ID (update (member_of_row r)) = g_ID r)
      by (rewrite Hid; reflexivity).
    rewrite Eid. cbn [members journal_add].
    rewrite (find_by_id _ _ Hnd Hin). rewrite G. cbv zeta.
    rewrite (genMemberToMember_update_row _ _ _ _ _ G).
    cbn [fst snd journal journal_add]. rewrite <- app_assoc. reflexivity.
  - unfold HandleReactionEvent_found, bind.
    cbn [errors_Is error_eqb orb].
    rewrite CreateMember_eq by exact Hne.
    cbn [SlackUID Date Member_literal members journal_add].
    rewrite (existsb_find _ _ F).
    rewrite UpdateMember_eq.
    set (id := next_rowid (members s)).
    set (m' := update (mkMember id my uid 0 0 (at_create clk)
                                (at_create clk))).
    assert (Eid : ID m' = id) by (unfold m'; rewrite Hid; reflexivity).
    rewrite Eid. cbn [members].
    assert (Hfresh : forall x, In x (members s) -> g_ID x <> id).
    { intros x Hx. pose proof (next_rowid_fresh _ _ Hx). unfold id. lia. }
    rewrite (find_app_none _ _ _ (find_other_id _ _ Hfresh)).
    cbn [find].
    assert (Hh : has_id id (mkRow id my uid 0 0
                              (at_create clk) (at_create clk)) = true)
      by (unfold has_id; cbn; apply Z.eqb_refl).
    rewrite Hh.
    assert (G : genMemberToMember (mkRow id my uid 0 0
                                     (at_create clk) (at_create clk))
                = Ok (mkMember id my uid 0 0
                               (at_create clk) (at_create clk))).
    { rewrite (genMemberToMember_valid (at_handler clk)); auto. }
    rewrite G. cbv zeta.
    rewrite (genMemberToMember_update_row _ _ _ _ _ G).
    cbn [fst snd journal journal_add]. rewrite <- !app_assoc. reflexivity.
Qed.

Lemma reconciliation_calls_witness :
  journal (snd (HandleReactionEvent october "U1" like_added one_member)) =
  [call_FindMember "U1" "10-2023";
   call_UpdateMember 1 (mkMemberUpdate (Some 5) (Some 2));
   call_FindMemberByID 1].
Proof.
  apply (reconciliation_calls october "U1" like_added one_member).
  - unfold valid_time. cbn. lia.
  - cbn. repeat constructor; cbn; tauto.
  - split; discriminate.
  - reflexivity.
Defined.
